(** * QuarterWidget: a shallow embedding of [src/Quarter/QuarterWidget.cpp]

    The widget glues a Qt GL surface to the Coin scene-graph library.  All
    of its state lives behind the [pimpl] pointer, and most of what it does
    is calling into objects it only holds pointers to: the render manager,
    the event manager, the navigation state machines, the scene-graph nodes
    and the process-wide cursor table.

    The embedding keeps that shape.  Objects that are reached through a
    pointer and can be deleted or replaced live in stores indexed by their
    address; a method call through a null or dangling pointer, or a failed
    [assert], has no defined result and is [None].  Calls whose effect is
    outside the widget (scheduling a redraw, rendering, debug output,
    grabbing the GL context) are appended to a trace, oldest first; the
    calls that change a manager or a state machine are kept, in the order
    they are made, in a list of their own. *)

From Stdlib Require Import ZArith QArith Qabs Qcanon Ascii Lia.
From Stdlib Require SpecFloat.
From stdpp Require Import base option numbers list strings gmap.

Local Open Scope Z_scope.


(** ** Addresses *)

(** [T *] is [option ptr]: [None] is the null pointer. *)
Abbreviation ptr := positive.

(** ** Scene-graph nodes

    The widget never edits the graph below the node it is handed; it only
    composes a new root above it.  A node is therefore given by its address
    together with the subgraph found there.  Two node pointers are the
    same pointer when the addresses agree ([same_node]). *)

Inductive SoType :=
| SoSeparator
| SoGroup
| SoDirectionalLight
| SoPerspectiveCamera
| SoOrthographicCamera
| SoShape.

#[global] Instance SoType_eq_dec : EqDecision SoType.
Proof. solve_decision. Defined.

(** [isOfType(SoCamera::getClassTypeId())] *)
Definition isCameraType (t : SoType) : bool :=
  match t with
  | SoPerspectiveCamera | SoOrthographicCamera => true
  | _ => false
  end.

#[local] Unset Elimination Schemes.
Inductive SoNode := Node (a : ptr) (t : SoType) (cs : list SoNode).
#[local] Set Elimination Schemes.

Definition addr (n : SoNode) : ptr := let 'Node a _ _ := n in a.
Definition type (n : SoNode) : SoType := let 'Node _ t _ := n in t.
Definition children (n : SoNode) : list SoNode := let 'Node _ _ cs := n in cs.

Definition isCamera (n : SoNode) : bool := isCameraType (type n).

(** Pointer comparison [a == b] on [SoNode *]. *)
Definition same_node (a b : option SoNode) : bool :=
  match a, b with
  | None, None => true
  | Some x, Some y => bool_decide (addr x = addr y)
  | _, _ => false
  end.

(** [SoGroup::addChild]: the child goes to the end of the child list. *)
Definition addChild (parent child : SoNode) : SoNode :=
  let 'Node a t cs := parent in Node a t (cs ++ [child]).

(** The nodes reached from [n], in the order a depth-first traversal
    meets them. *)
Fixpoint traversal (n : SoNode) : list SoNode :=
  match n with
  | Node _ _ cs =>
      n :: (fix each (l : list SoNode) : list SoNode :=
              match l with
              | [] => []
              | c :: l' => traversal c ++ each l'
              end) cs
  end.

(** Modelled from the spec: [QuarterWidgetP::searchForCamera] is defined in
    QuarterWidgetP.cpp, which is not part of the sources at hand.  The
    specification describes it as the search of the node's subgraph for the
    first camera encountered in a depth-first traversal, null when there is
    none. *)
Fixpoint searchForCamera (root : SoNode) : option SoNode :=
  match root with
  | Node _ t cs =>
      if isCameraType t then Some root
      else (fix first (l : list SoNode) : option SoNode :=
              match l with
              | [] => None
              | c :: l' =>
                  match searchForCamera c with
                  | Some cam => Some cam
                  | None => first l'
                  end
              end) cs
  end.

(** Induction on a node with the hypothesis for every child. *)
Fixpoint SoNode_children_ind (P : SoNode -> Prop)
    (step : ∀ a t cs, Forall P cs -> P (Node a t cs)) (n : SoNode) : P n :=
  match n with
  | Node a t cs =>
      step a t cs
        ((fix all (l : list SoNode) : Forall P l :=
            match l with
            | [] => List.Forall_nil P
            | c :: l' => List.Forall_cons P c l' (SoNode_children_ind P step c) (all l')
            end) cs)
  end.

(** ** Value types of the collaborators *)

(** [SbViewportRegion(short width, short height)]: the window size. *)
Record SbViewportRegion := { vp_width : Z; vp_height : Z }.

(** What [SbViewportRegion vp;] holds before anything is assigned to it. *)
Definition SbViewportRegion_default : SbViewportRegion :=
  {| vp_width := 100; vp_height := 100 |}.

(** [int] to [short], as the two-argument constructor receives it. *)
Definition to_short (x : Z) : Z := (x + 32768) mod 65536 - 32768.

Definition SbViewportRegion_wh (width height : Z) : SbViewportRegion :=
  {| vp_width := to_short width; vp_height := to_short height |}.

(** ** Floating-point numbers

    [double] and [float] are the IEEE 754 formats binary64 and binary32,
    given by sign, mantissa and exponent as the Standard Library specifies
    them; every operation rounds to the nearest value of its format, ties
    to even. *)
Abbreviation double := SpecFloat.spec_float.
Abbreviation float := SpecFloat.spec_float.

(** [(double) n] for an [int]: exact. *)
Definition double_of_int (n : Z) : double :=
  SpecFloat.binary_normalize 53 1024 n 0 false.

(** [x * y], [x / y] and [x < y] on [double]. *)
Definition double_mul : double -> double -> double := SpecFloat.SFmul 53 1024.
Definition double_div : double -> double -> double := SpecFloat.SFdiv 53 1024.
Definition double_ltb : double -> double -> bool := SpecFloat.SFltb.

(** [(float) x]: a [double] narrowed to [float]. *)
Definition float_of_double (x : double) : float :=
  match x with
  | SpecFloat.S754_finite s m e => SpecFloat.binary_round 24 128 s m e
  | _ => x
  end.

(** [(int) x]: the fraction is dropped.  C++ leaves the conversion
    undefined for a value no [int] can hold; the model answers the whole
    part of a finite value whatever its size, and 0 otherwise. *)
Definition int_of_double (x : double) : Z :=
  match x with
  | SpecFloat.S754_finite s m e =>
      let magnitude :=
        if 0 <=? e then Z.shiftl (Z.pos m) e else Z.shiftr (Z.pos m) (- e) in
      if s then - magnitude else magnitude
  | _ => 0
  end.

(** A [qreal] is kept by its exact value, a rational; this is the [double]
    of that value, and for the value of a [double] the division is exact. *)
Definition double_of_Qc (q : Qc) : double :=
  double_div (double_of_int (Qnum q)) (double_of_int (Z.pos (Qden q))).

(** [SbColor4f]: four [float] channels. *)
Record SbColor4f := { col_r : float; col_g : float; col_b : float; col_a : float }.

(** [QColor]: four integer channels, each within 0..255 as [red()],
    [green()], [blue()] and [alpha()] return them. *)
Record QColor := { red : Z; green : Z; blue : Z; alpha : Z }.

(** [(a < minval) ? minval : (a > maxval) ? maxval : a] *)
Definition SbClamp {A} (lt : A -> A -> bool) (a minval maxval : A) : A :=
  if lt a minval then minval else if lt maxval a then maxval else a.

(** [Qt::CursorShape], the values the widget uses. *)
Inductive QCursor :=
| ArrowCursor
| OpenHandCursor
| ClosedHandCursor
| SizeAllCursor
| SizeVerCursor
| CrossCursor.

#[global] Instance QCursor_eq_dec : EqDecision QCursor.
Proof. solve_decision. Defined.

(** [QUrl], by its components as the accessors return them. *)
Record QUrl := {
  url_scheme : string;
  url_authority : string;
  url_path : string;
  url_query : string;
  url_fragment : string;
}.

#[global] Instance QUrl_eq_dec : EqDecision QUrl.
Proof. solve_decision. Defined.

(** [QUrl()] *)
Definition QUrl_null : QUrl :=
  {| url_scheme := ""; url_authority := ""; url_path := "";
     url_query := ""; url_fragment := "" |}.

(** [QUrl::isEmpty]: the URL has no data. *)
Definition isEmpty (u : QUrl) : bool := bool_decide (u = QUrl_null).

(** [SoEvent]: only its identity matters to the widget. *)
Record SoEvent := { ev_id : Z }.

(** ** The objects behind the widget's pointers *)

(** [SoRenderManager], as far as the widget reads and writes it.  The
    getters return what the matching setter stored last; the transparency
    type is the one of the manager's GL render action. *)
Record SoRenderManager := {
  rm_scene : option SoNode;
  rm_camera : option SoNode;
  rm_viewport : SbViewportRegion;
  rm_background : SbColor4f;
  rm_transparency : Z;
  rm_rendermode : Z;
  rm_stereomode : Z;
}.

(** [SoEventManager]: the same scene, camera and viewport, and the list of
    state machines added to it. *)
Record SoEventManager := {
  em_scene : option SoNode;
  em_camera : option SoNode;
  em_viewport : SbViewportRegion;
  em_statemachines : list ptr;
}.

(** [ScXMLStateMachine].  [sm_isSoScXML] answers
    [isOfType(SoScXMLStateMachine::getClassTypeId())]; [sm_processed] lists
    the named events that were queued and then processed, oldest first;
    [sm_statechangecbs] counts the callbacks registered with
    [addStateChangeCallback]. *)
Record ScXMLStateMachine := {
  sm_isSoScXML : bool;
  sm_active : bool;
  sm_sceneroot : option SoNode;
  sm_camera : option SoNode;
  sm_statechangecbs : nat;
  sm_processed : list string;
}.

(** The members of [QuarterWidgetP] the widget code touches. *)
Record QuarterWidgetP := {
  sorendermanager : option ptr;
  initialsorendermanager : bool;
  soeventmanager : option ptr;
  initialsoeventmanager : bool;
  processdelayqueue : bool;
  currentStateMachine : option ptr;
  headlight : option SoNode;
  scene : option SoNode;
  clearzbuffer : bool;
  clearwindow : bool;
  autoredrawenabled : bool;
  navigationModeFile : QUrl;
  device_pixel_ratio : Qc;
}.

(** What [qDebug() << ...] is fed. *)
Inductive DebugItem :=
| DText (s : string)
| DUrl (u : QUrl).

(** Calls that leave the widget. *)
Inductive Event :=
| ScheduleRedraw (m : ptr)
| Render (m : ptr) (clearwindow clearzbuffer : bool)
| DoneCurrent
| MakeCurrent
| ProcessDelayQueue (isidle : bool)
| UpdateGL
| Update
| DevicePixelRatioChanged (r : Qc)
| Touch (a : ptr)
| QDebug (items : list DebugItem).

(** What the widget asks of a manager or of a state machine through one of
    its pointers: the object and the member function called on it, with
    its arguments. *)
Inductive Call :=
| OnRenderManager (p : ptr) (call : SoRenderManager -> SoRenderManager)
| OnEventManager (p : ptr) (call : SoEventManager -> SoEventManager)
| OnStateMachine (p : ptr) (call : ScXMLStateMachine -> ScXMLStateMachine).

(** The widget together with everything it can reach.  [refcount] holds,
    per node address, the references taken with [ref()] and not yet given
    back with [unref()] by the widget's own code.  [statecursormap] is
    [QuarterP::statecursormap], null until Quarter is initialised.
    [calls] lists the calls made on the managers and on the state
    machines, oldest first. *)
Record World := {
  pimpl : QuarterWidgetP;
  rendermanagers : gmap ptr SoRenderManager;
  eventmanagers : gmap ptr SoEventManager;
  statemachines : gmap ptr ScXMLStateMachine;
  refcount : gmap ptr Z;
  next_node : ptr;
  statecursormap : option (gmap string QCursor);
  trace : list Event;
  calls : list Call;
}.

(** *** Field assignment *)

Definition set_sorendermanager v p :=
  {| sorendermanager := v; initialsorendermanager := initialsorendermanager p;
     soeventmanager := soeventmanager p; initialsoeventmanager := initialsoeventmanager p;
     processdelayqueue := processdelayqueue p; currentStateMachine := currentStateMachine p;
     headlight := headlight p; scene := scene p; clearzbuffer := clearzbuffer p;
     clearwindow := clearwindow p; autoredrawenabled := autoredrawenabled p;
     navigationModeFile := navigationModeFile p; device_pixel_ratio := device_pixel_ratio p |}.

Definition set_initialsorendermanager v p :=
  {| sorendermanager := sorendermanager p; initialsorendermanager := v;
     soeventmanager := soeventmanager p; initialsoeventmanager := initialsoeventmanager p;
     processdelayqueue := processdelayqueue p; currentStateMachine := currentStateMachine p;
     headlight := headlight p; scene := scene p; clearzbuffer := clearzbuffer p;
     clearwindow := clearwindow p; autoredrawenabled := autoredrawenabled p;
     navigationModeFile := navigationModeFile p; device_pixel_ratio := device_pixel_ratio p |}.

Definition set_soeventmanager v p :=
  {| sorendermanager := sorendermanager p; initialsorendermanager := initialsorendermanager p;
     soeventmanager := v; initialsoeventmanager := initialsoeventmanager p;
     processdelayqueue := processdelayqueue p; currentStateMachine := currentStateMachine p;
     headlight := headlight p; scene := scene p; clearzbuffer := clearzbuffer p;
     clearwindow := clearwindow p; autoredrawenabled := autoredrawenabled p;
     navigationModeFile := navigationModeFile p; device_pixel_ratio := device_pixel_ratio p |}.

Definition set_initialsoeventmanager v p :=
  {| sorendermanager := sorendermanager p; initialsorendermanager := initialsorendermanager p;
     soeventmanager := soeventmanager p; initialsoeventmanager := v;
     processdelayqueue := processdelayqueue p; currentStateMachine := currentStateMachine p;
     headlight := headlight p; scene := scene p; clearzbuffer := clearzbuffer p;
     clearwindow := clearwindow p; autoredrawenabled := autoredrawenabled p;
     navigationModeFile := navigationModeFile p; device_pixel_ratio := device_pixel_ratio p |}.

Definition set_processdelayqueue v p :=
  {| sorendermanager := sorendermanager p; initialsorendermanager := initialsorendermanager p;
     soeventmanager := soeventmanager p; initialsoeventmanager := initialsoeventmanager p;
     processdelayqueue := v; currentStateMachine := currentStateMachine p;
     headlight := headlight p; scene := scene p; clearzbuffer := clearzbuffer p;
     clearwindow := clearwindow p; autoredrawenabled := autoredrawenabled p;
     navigationModeFile := navigationModeFile p; device_pixel_ratio := device_pixel_ratio p |}.

Definition set_currentStateMachine v p :=
  {| sorendermanager := sorendermanager p; initialsorendermanager := initialsorendermanager p;
     soeventmanager := soeventmanager p; initialsoeventmanager := initialsoeventmanager p;
     processdelayqueue := processdelayqueue p; currentStateMachine := v;
     headlight := headlight p; scene := scene p; clearzbuffer := clearzbuffer p;
     clearwindow := clearwindow p; autoredrawenabled := autoredrawenabled p;
     navigationModeFile := navigationModeFile p; device_pixel_ratio := device_pixel_ratio p |}.

Definition set_headlight v p :=
  {| sorendermanager := sorendermanager p; initialsorendermanager := initialsorendermanager p;
     soeventmanager := soeventmanager p; initialsoeventmanager := initialsoeventmanager p;
     processdelayqueue := processdelayqueue p; currentStateMachine := currentStateMachine p;
     headlight := v; scene := scene p; clearzbuffer := clearzbuffer p;
     clearwindow := clearwindow p; autoredrawenabled := autoredrawenabled p;
     navigationModeFile := navigationModeFile p; device_pixel_ratio := device_pixel_ratio p |}.

Definition set_scene v p :=
  {| sorendermanager := sorendermanager p; initialsorendermanager := initialsorendermanager p;
     soeventmanager := soeventmanager p; initialsoeventmanager := initialsoeventmanager p;
     processdelayqueue := processdelayqueue p; currentStateMachine := currentStateMachine p;
     headlight := headlight p; scene := v; clearzbuffer := clearzbuffer p;
     clearwindow := clearwindow p; autoredrawenabled := autoredrawenabled p;
     navigationModeFile := navigationModeFile p; device_pixel_ratio := device_pixel_ratio p |}.

Definition set_clearzbuffer v p :=
  {| sorendermanager := sorendermanager p; initialsorendermanager := initialsorendermanager p;
     soeventmanager := soeventmanager p; initialsoeventmanager := initialsoeventmanager p;
     processdelayqueue := processdelayqueue p; currentStateMachine := currentStateMachine p;
     headlight := headlight p; scene := scene p; clearzbuffer := v;
     clearwindow := clearwindow p; autoredrawenabled := autoredrawenabled p;
     navigationModeFile := navigationModeFile p; device_pixel_ratio := device_pixel_ratio p |}.

Definition set_clearwindow v p :=
  {| sorendermanager := sorendermanager p; initialsorendermanager := initialsorendermanager p;
     soeventmanager := soeventmanager p; initialsoeventmanager := initialsoeventmanager p;
     processdelayqueue := processdelayqueue p; currentStateMachine := currentStateMachine p;
     headlight := headlight p; scene := scene p; clearzbuffer := clearzbuffer p;
     clearwindow := v; autoredrawenabled := autoredrawenabled p;
     navigationModeFile := navigationModeFile p; device_pixel_ratio := device_pixel_ratio p |}.

Definition set_autoredrawenabled v p :=
  {| sorendermanager := sorendermanager p; initialsorendermanager := initialsorendermanager p;
     soeventmanager := soeventmanager p; initialsoeventmanager := initialsoeventmanager p;
     processdelayqueue := processdelayqueue p; currentStateMachine := currentStateMachine p;
     headlight := headlight p; scene := scene p; clearzbuffer := clearzbuffer p;
     clearwindow := clearwindow p; autoredrawenabled := v;
     navigationModeFile := navigationModeFile p; device_pixel_ratio := device_pixel_ratio p |}.

Definition set_navigationModeFile v p :=
  {| sorendermanager := sorendermanager p; initialsorendermanager := initialsorendermanager p;
     soeventmanager := soeventmanager p; initialsoeventmanager := initialsoeventmanager p;
     processdelayqueue := processdelayqueue p; currentStateMachine := currentStateMachine p;
     headlight := headlight p; scene := scene p; clearzbuffer := clearzbuffer p;
     clearwindow := clearwindow p; autoredrawenabled := autoredrawenabled p;
     navigationModeFile := v; device_pixel_ratio := device_pixel_ratio p |}.

Definition set_device_pixel_ratio v p :=
  {| sorendermanager := sorendermanager p; initialsorendermanager := initialsorendermanager p;
     soeventmanager := soeventmanager p; initialsoeventmanager := initialsoeventmanager p;
     processdelayqueue := processdelayqueue p; currentStateMachine := currentStateMachine p;
     headlight := headlight p; scene := scene p; clearzbuffer := clearzbuffer p;
     clearwindow := clearwindow p; autoredrawenabled := autoredrawenabled p;
     navigationModeFile := navigationModeFile p; device_pixel_ratio := v |}.

(** [PRIVATE(this)->field = v] *)
Definition assign (set : QuarterWidgetP -> QuarterWidgetP) (w : World) : World :=
  {| pimpl := set (pimpl w); rendermanagers := rendermanagers w;
     eventmanagers := eventmanagers w; statemachines := statemachines w;
     refcount := refcount w; next_node := next_node w;
     statecursormap := statecursormap w; trace := trace w;
     calls := calls w |}.

Definition with_rendermanagers (f : gmap ptr SoRenderManager -> gmap ptr SoRenderManager)
    (w : World) : World :=
  {| pimpl := pimpl w; rendermanagers := f (rendermanagers w);
     eventmanagers := eventmanagers w; statemachines := statemachines w;
     refcount := refcount w; next_node := next_node w;
     statecursormap := statecursormap w; trace := trace w;
     calls := calls w |}.

Definition with_eventmanagers (f : gmap ptr SoEventManager -> gmap ptr SoEventManager)
    (w : World) : World :=
  {| pimpl := pimpl w; rendermanagers := rendermanagers w;
     eventmanagers := f (eventmanagers w); statemachines := statemachines w;
     refcount := refcount w; next_node := next_node w;
     statecursormap := statecursormap w; trace := trace w;
     calls := calls w |}.

Definition with_statemachines (f : gmap ptr ScXMLStateMachine -> gmap ptr ScXMLStateMachine)
    (w : World) : World :=
  {| pimpl := pimpl w; rendermanagers := rendermanagers w;
     eventmanagers := eventmanagers w; statemachines := f (statemachines w);
     refcount := refcount w; next_node := next_node w;
     statecursormap := statecursormap w; trace := trace w;
     calls := calls w |}.

Definition with_refcount (f : gmap ptr Z -> gmap ptr Z) (w : World) : World :=
  {| pimpl := pimpl w; rendermanagers := rendermanagers w;
     eventmanagers := eventmanagers w; statemachines := statemachines w;
     refcount := f (refcount w); next_node := next_node w;
     statecursormap := statecursormap w; trace := trace w;
     calls := calls w |}.

Definition with_next_node (a : ptr) (w : World) : World :=
  {| pimpl := pimpl w; rendermanagers := rendermanagers w;
     eventmanagers := eventmanagers w; statemachines := statemachines w;
     refcount := refcount w; next_node := a;
     statecursormap := statecursormap w; trace := trace w;
     calls := calls w |}.

Definition with_statecursormap (m : option (gmap string QCursor)) (w : World) : World :=
  {| pimpl := pimpl w; rendermanagers := rendermanagers w;
     eventmanagers := eventmanagers w; statemachines := statemachines w;
     refcount := refcount w; next_node := next_node w;
     statecursormap := m; trace := trace w; calls := calls w |}.

(** An outside call is recorded after the ones before it. *)
Definition emit (e : Event) (w : World) : World :=
  {| pimpl := pimpl w; rendermanagers := rendermanagers w;
     eventmanagers := eventmanagers w; statemachines := statemachines w;
     refcount := refcount w; next_node := next_node w;
     statecursormap := statecursormap w; trace := trace w ++ [e];
     calls := calls w |}.

(** A call [f] on the render manager at [p], which is [m] before the call:
    the manager changes and the call is recorded after the ones before
    it.  The same for an event manager and for a state machine. *)
Definition call_rendermanager (p : ptr) (f : SoRenderManager -> SoRenderManager)
    (m : SoRenderManager) (w : World) : World :=
  {| pimpl := pimpl w; rendermanagers := <[p := f m]> (rendermanagers w);
     eventmanagers := eventmanagers w; statemachines := statemachines w;
     refcount := refcount w; next_node := next_node w;
     statecursormap := statecursormap w; trace := trace w;
     calls := calls w ++ [OnRenderManager p f] |}.

Definition call_eventmanager (p : ptr) (f : SoEventManager -> SoEventManager)
    (m : SoEventManager) (w : World) : World :=
  {| pimpl := pimpl w; rendermanagers := rendermanagers w;
     eventmanagers := <[p := f m]> (eventmanagers w); statemachines := statemachines w;
     refcount := refcount w; next_node := next_node w;
     statecursormap := statecursormap w; trace := trace w;
     calls := calls w ++ [OnEventManager p f] |}.

Definition call_statemachine (p : ptr) (f : ScXMLStateMachine -> ScXMLStateMachine)
    (m : ScXMLStateMachine) (w : World) : World :=
  {| pimpl := pimpl w; rendermanagers := rendermanagers w;
     eventmanagers := eventmanagers w; statemachines := <[p := f m]> (statemachines w);
     refcount := refcount w; next_node := next_node w;
     statecursormap := statecursormap w; trace := trace w;
     calls := calls w ++ [OnStateMachine p f] |}.

(** ** The library calls the widget makes *)

(** *** On a render manager *)

Definition rm_setSceneGraph (v : option SoNode) (m : SoRenderManager) :=
  {| rm_scene := v; rm_camera := rm_camera m; rm_viewport := rm_viewport m;
     rm_background := rm_background m; rm_transparency := rm_transparency m;
     rm_rendermode := rm_rendermode m; rm_stereomode := rm_stereomode m |}.

Definition rm_setCamera (v : option SoNode) (m : SoRenderManager) :=
  {| rm_scene := rm_scene m; rm_camera := v; rm_viewport := rm_viewport m;
     rm_background := rm_background m; rm_transparency := rm_transparency m;
     rm_rendermode := rm_rendermode m; rm_stereomode := rm_stereomode m |}.

Definition rm_setViewportRegion (v : SbViewportRegion) (m : SoRenderManager) :=
  {| rm_scene := rm_scene m; rm_camera := rm_camera m; rm_viewport := v;
     rm_background := rm_background m; rm_transparency := rm_transparency m;
     rm_rendermode := rm_rendermode m; rm_stereomode := rm_stereomode m |}.

Definition rm_setBackgroundColor (v : SbColor4f) (m : SoRenderManager) :=
  {| rm_scene := rm_scene m; rm_camera := rm_camera m; rm_viewport := rm_viewport m;
     rm_background := v; rm_transparency := rm_transparency m;
     rm_rendermode := rm_rendermode m; rm_stereomode := rm_stereomode m |}.

(** [getGLRenderAction()->setTransparencyType(type)] *)
Definition rm_setTransparencyType (v : Z) (m : SoRenderManager) :=
  {| rm_scene := rm_scene m; rm_camera := rm_camera m; rm_viewport := rm_viewport m;
     rm_background := rm_background m; rm_transparency := v;
     rm_rendermode := rm_rendermode m; rm_stereomode := rm_stereomode m |}.

Definition rm_setRenderMode (v : Z) (m : SoRenderManager) :=
  {| rm_scene := rm_scene m; rm_camera := rm_camera m; rm_viewport := rm_viewport m;
     rm_background := rm_background m; rm_transparency := rm_transparency m;
     rm_rendermode := v; rm_stereomode := rm_stereomode m |}.

Definition rm_setStereoMode (v : Z) (m : SoRenderManager) :=
  {| rm_scene := rm_scene m; rm_camera := rm_camera m; rm_viewport := rm_viewport m;
     rm_background := rm_background m; rm_transparency := rm_transparency m;
     rm_rendermode := rm_rendermode m; rm_stereomode := v |}.

(** *** On an event manager *)

Definition em_setSceneGraph (v : option SoNode) (m : SoEventManager) :=
  {| em_scene := v; em_camera := em_camera m; em_viewport := em_viewport m;
     em_statemachines := em_statemachines m |}.

Definition em_setCamera (v : option SoNode) (m : SoEventManager) :=
  {| em_scene := em_scene m; em_camera := v; em_viewport := em_viewport m;
     em_statemachines := em_statemachines m |}.

Definition em_setViewportRegion (v : SbViewportRegion) (m : SoEventManager) :=
  {| em_scene := em_scene m; em_camera := em_camera m; em_viewport := v;
     em_statemachines := em_statemachines m |}.

Definition em_addSoScXMLStateMachine (sm : ptr) (m : SoEventManager) :=
  {| em_scene := em_scene m; em_camera := em_camera m; em_viewport := em_viewport m;
     em_statemachines := em_statemachines m ++ [sm] |}.

(** Drops the first entry equal to [sm], if there is one. *)
Fixpoint remove_first (sm : ptr) (l : list ptr) : list ptr :=
  match l with
  | [] => []
  | x :: l' => if decide (x = sm) then l' else x :: remove_first sm l'
  end.

Definition em_removeSoScXMLStateMachine (sm : ptr) (m : SoEventManager) :=
  {| em_scene := em_scene m; em_camera := em_camera m; em_viewport := em_viewport m;
     em_statemachines := remove_first sm (em_statemachines m) |}.

(** *** On a state machine *)

Definition sm_setSceneGraphRoot (v : option SoNode) (m : ScXMLStateMachine) :=
  {| sm_isSoScXML := sm_isSoScXML m; sm_active := sm_active m; sm_sceneroot := v;
     sm_camera := sm_camera m; sm_statechangecbs := sm_statechangecbs m;
     sm_processed := sm_processed m |}.

Definition sm_setActiveCamera (v : option SoNode) (m : ScXMLStateMachine) :=
  {| sm_isSoScXML := sm_isSoScXML m; sm_active := sm_active m;
     sm_sceneroot := sm_sceneroot m; sm_camera := v;
     sm_statechangecbs := sm_statechangecbs m; sm_processed := sm_processed m |}.

Definition sm_addStateChangeCallback (m : ScXMLStateMachine) :=
  {| sm_isSoScXML := sm_isSoScXML m; sm_active := sm_active m;
     sm_sceneroot := sm_sceneroot m; sm_camera := sm_camera m;
     sm_statechangecbs := S (sm_statechangecbs m); sm_processed := sm_processed m |}.

(** [initialize()] starts the machine. *)
Definition sm_initialize (m : ScXMLStateMachine) :=
  {| sm_isSoScXML := sm_isSoScXML m; sm_active := true;
     sm_sceneroot := sm_sceneroot m; sm_camera := sm_camera m;
     sm_statechangecbs := sm_statechangecbs m; sm_processed := sm_processed m |}.

(** [queueEvent(name)] followed by [processEventQueue()]. *)
Definition sm_queueEvent_processEventQueue (name : string) (m : ScXMLStateMachine) :=
  {| sm_isSoScXML := sm_isSoScXML m; sm_active := sm_active m;
     sm_sceneroot := sm_sceneroot m; sm_camera := sm_camera m;
     sm_statechangecbs := sm_statechangecbs m;
     sm_processed := sm_processed m ++ [name] |}.

(** *** On nodes *)

Definition refcount_of (w : World) (a : ptr) : Z := default 0 (refcount w !! a).

(** [n->ref()] *)
Definition ref (n : SoNode) (w : World) : World :=
  with_refcount <[addr n := refcount_of w (addr n) + 1]> w.

(** [n->unref()] *)
Definition unref (n : SoNode) (w : World) : World :=
  with_refcount <[addr n := refcount_of w (addr n) - 1]> w.

(** [if (n) n->ref();] and [if (n) n->unref();] *)
Definition ref_if (n : option SoNode) (w : World) : World :=
  match n with Some x => ref x w | None => w end.

Definition unref_if (n : option SoNode) (w : World) : World :=
  match n with Some x => unref x w | None => w end.

(** [new T]: a childless node at an address not handed out before. *)
Definition new_node (t : SoType) (w : World) : SoNode * World :=
  (Node (next_node w) t [], with_next_node (Pos.succ (next_node w)) w).

(** [assert(b)] *)
Definition asserted (b : bool) : option unit := if b then Some () else None.

(** ** Calls through the widget's pointers *)

(** [PRIVATE(this)->sorendermanager->f(...)] *)
Definition on_rendermanager (f : SoRenderManager -> SoRenderManager) (w : World)
    : option World :=
  p ← sorendermanager (pimpl w);
  m ← rendermanagers w !! p;
  Some (call_rendermanager p f m w).

(** [PRIVATE(this)->soeventmanager->f(...)] *)
Definition on_eventmanager (f : SoEventManager -> SoEventManager) (w : World)
    : option World :=
  p ← soeventmanager (pimpl w);
  m ← eventmanagers w !! p;
  Some (call_eventmanager p f m w).

(** [sm->f(...)] *)
Definition on_statemachine (sm : ptr) (f : ScXMLStateMachine -> ScXMLStateMachine)
    (w : World) : option World :=
  m ← statemachines w !! sm;
  Some (call_statemachine sm f m w).

(** [PRIVATE(this)->sorendermanager->scheduleRedraw()] *)
Definition scheduleRedraw (w : World) : option World :=
  p ← sorendermanager (pimpl w);
  _ ← rendermanagers w !! p;
  Some (emit (ScheduleRedraw p) w).

(** [delete p]: nothing for a null pointer, undefined for a dangling one. *)
Definition delete_rendermanager (p : option ptr) (w : World) : option World :=
  match p with
  | None => Some w
  | Some a => _ ← rendermanagers w !! a; Some (with_rendermanagers (delete a) w)
  end.

Definition delete_eventmanager (p : option ptr) (w : World) : option World :=
  match p with
  | None => Some w
  | Some a => _ ← eventmanagers w !! a; Some (with_eventmanagers (delete a) w)
  end.

Definition delete_statemachine (p : option ptr) (w : World) : option World :=
  match p with
  | None => Some w
  | Some a => _ ← statemachines w !! a; Some (with_statemachines (delete a) w)
  end.

(** The object a reader hands back sits at an address of its own. *)
Definition new_statemachine (o : option ScXMLStateMachine) (w : World)
    : option ptr * World :=
  match o with
  | None => (None, w)
  | Some sm =>
      let p := fresh (dom (statemachines w)) in
      (Some p, with_statemachines <[p := sm]> w)
  end.

(** ** What the host surface reports when asked *)

Record Host := {
  (** the pixel ratio of the window handle, else of the application *)
  host_devicePixelRatio : Qc;
  (** [this->width()], [this->height()] *)
  host_width : Z;
  host_height : Z;
  (** [this->isValid()] *)
  host_isValid : bool;
  (** [SoDB::getSensorManager()->isDelaySensorPending()] *)
  host_isDelaySensorPending : bool;
}.

(** [(int)(ratio * n)]: the [int] is converted to [double], the product is
    rounded to a [double], and its fraction is dropped. *)
Definition scaled (ratio : Qc) (n : Z) : Z :=
  int_of_double (double_mul (double_of_Qc ratio) (double_of_int n)).

(** [for (c = 0; c < em->getNumSoScXMLStateMachines(); ++c)], the loop of
    [viewAll] and [seek]: every active machine of the list gets [body]. *)
Fixpoint for_active_statemachines (body : ScXMLStateMachine -> ScXMLStateMachine)
    (l : list ptr) (w : World) : option World :=
  match l with
  | [] => Some w
  | c :: l' =>
      sostatemachine ← statemachines w !! c;
      for_active_statemachines body l'
        (if sm_active sostatemachine
         then call_statemachine c body sostatemachine w
         else w)
  end.

(** ** A concrete widget

    The worlds below are used to run the functions: a widget as its
    constructor leaves it (its own render and event manager, both flagged
    as initial, the headlight referenced once, no scene, no navigation
    file), a second render manager supplied by a caller, and one
    navigation state machine. *)

Definition black : SbColor4f :=
  {| col_r := SpecFloat.S754_zero false; col_g := SpecFloat.S754_zero false;
     col_b := SpecFloat.S754_zero false; col_a := SpecFloat.S754_zero false |}.

Definition plain_rendermanager : SoRenderManager :=
  {| rm_scene := None; rm_camera := None; rm_viewport := SbViewportRegion_default;
     rm_background := black; rm_transparency := 0; rm_rendermode := 0;
     rm_stereomode := 0 |}.

Definition plain_eventmanager : SoEventManager :=
  {| em_scene := None; em_camera := None; em_viewport := SbViewportRegion_default;
     em_statemachines := [] |}.

Definition examiner : ScXMLStateMachine :=
  {| sm_isSoScXML := true; sm_active := false; sm_sceneroot := None;
     sm_camera := None; sm_statechangecbs := O; sm_processed := [] |}.

(** A parsed document that is a state machine, but not a [SoScXMLStateMachine]. *)
Definition foreign_machine : ScXMLStateMachine :=
  {| sm_isSoScXML := false; sm_active := false; sm_sceneroot := None;
     sm_camera := None; sm_statechangecbs := O; sm_processed := [] |}.

Definition the_headlight : SoNode := Node 1 SoDirectionalLight [].

Definition fresh_pimpl : QuarterWidgetP :=
  {| sorendermanager := Some 1%positive; initialsorendermanager := true;
     soeventmanager := Some 1%positive; initialsoeventmanager := true;
     processdelayqueue := true; currentStateMachine := None;
     headlight := Some the_headlight; scene := None;
     clearzbuffer := true; clearwindow := true; autoredrawenabled := true;
     navigationModeFile := QUrl_null; device_pixel_ratio := 1%Qc |}.

Definition fresh_widget : World :=
  {| pimpl := fresh_pimpl;
     rendermanagers := {[ 1%positive := plain_rendermanager ]};
     eventmanagers := {[ 1%positive := plain_eventmanager ]};
     statemachines := ∅;
     refcount := {[ 1%positive := 1 ]};
     next_node := 2%positive;
     statecursormap := Some ∅;
     trace := [];
     calls := [] |}.

(** The same widget with a second render manager at address 2, as a caller
    would create it before handing it over. *)
Definition widget_and_manager : World :=
  with_rendermanagers <[ 2%positive := plain_rendermanager ]> fresh_widget.

(** The same widget after some caller bound a cursor of its own. *)
Definition widget_with_cursor : World :=
  with_statecursormap (Some {[ "measure" := CrossCursor ]}) fresh_widget.

(** A scene without a camera: a separator over two shapes. *)
Definition two_shapes : SoNode :=
  Node 10 SoSeparator [Node 11 SoShape []; Node 12 SoShape []].

(** A scene with two cameras, the first one below a group. *)
Definition with_cameras : SoNode :=
  Node 20 SoSeparator
    [Node 21 SoShape [];
     Node 22 SoGroup [Node 23 SoShape []; Node 24 SoOrthographicCamera []];
     Node 25 SoPerspectiveCamera []].

Definition a_host : Host :=
  {| host_devicePixelRatio := 1%Qc; host_width := 640; host_height := 480;
     host_isValid := true; host_isDelaySensorPending := true |}.


Definition examiner_url : QUrl :=
  {| url_scheme := "coin"; url_authority := "";
     url_path := "/scxml/navigation/examiner.xml";
     url_query := ""; url_fragment := "" |}.

Definition ftp_url : QUrl :=
  {| url_scheme := "ftp"; url_authority := "example.org";
     url_path := "/nav.xml"; url_query := ""; url_fragment := "" |}.

Definition missing_url : QUrl :=
  {| url_scheme := "file"; url_authority := "";
     url_path := "/nowhere/nav.xml"; url_query := ""; url_fragment := "" |}.

(** An outside world in which the examiner resource exists, no file can be
    opened, and the event manager reports every event as handled. *)
Definition only_path (u : QUrl) : string := url_path u.

Definition coin_resources (filename : string) : option ScXMLStateMachine :=
  if decide (filename = "coin:scxml/navigation/examiner.xml") then Some examiner
  else None.

Definition no_files (filename : string) : option string := None.

Definition no_buffers (contents : string) : option ScXMLStateMachine := None.

Definition always_handled (p : ptr) (e : SoEvent) (w : World) : bool * World :=
  (true, w).

Definition qt6 : Z := 0x060000.

(** The widget with the examiner navigation loaded: the machine sits at
    address 1, is attached to the event manager and is running. *)
Definition running_examiner : ScXMLStateMachine :=
  {| sm_isSoScXML := true; sm_active := true; sm_sceneroot := None;
     sm_camera := None; sm_statechangecbs := 1%nat; sm_processed := [] |}.

Definition widget_navigating : World :=
  {| pimpl := set_navigationModeFile examiner_url
                (set_currentStateMachine (Some 1%positive) fresh_pimpl);
     rendermanagers := {[ 1%positive := plain_rendermanager ]};
     eventmanagers :=
       {[ 1%positive := em_addSoScXMLStateMachine 1%positive plain_eventmanager ]};
     statemachines := {[ 1%positive := running_examiner ]};
     refcount := {[ 1%positive := 1 ]};
     next_node := 2%positive;
     statecursormap := Some ∅;
     trace := [];
     calls := [] |}.

(** Reading a field back through the assignments made before. *)
Ltac fields :=
  cbn [pimpl rendermanagers eventmanagers statemachines refcount next_node
       statecursormap trace calls
       assign emit call_rendermanager call_eventmanager call_statemachine
       with_rendermanagers with_eventmanagers with_statemachines
       with_refcount with_next_node with_statecursormap
       sorendermanager initialsorendermanager soeventmanager
       initialsoeventmanager processdelayqueue currentStateMachine headlight
       scene clearzbuffer clearwindow autoredrawenabled navigationModeFile
       device_pixel_ratio
       set_sorendermanager set_initialsorendermanager set_soeventmanager
       set_initialsoeventmanager set_processdelayqueue set_currentStateMachine
       set_headlight set_scene set_clearzbuffer set_clearwindow
       set_autoredrawenabled set_navigationModeFile set_device_pixel_ratio
       ref unref ref_if unref_if asserted mbind option_bind].

Ltac fields_in H :=
  cbn [pimpl rendermanagers eventmanagers statemachines refcount next_node
       statecursormap trace calls
       assign emit call_rendermanager call_eventmanager call_statemachine
       with_rendermanagers with_eventmanagers with_statemachines
       with_refcount with_next_node with_statecursormap
       sorendermanager initialsorendermanager soeventmanager
       initialsoeventmanager processdelayqueue currentStateMachine headlight
       scene clearzbuffer clearwindow autoredrawenabled navigationModeFile
       device_pixel_ratio
       set_sorendermanager set_initialsorendermanager set_soeventmanager
       set_initialsoeventmanager set_processdelayqueue set_currentStateMachine
       set_headlight set_scene set_clearzbuffer set_clearwindow
       set_autoredrawenabled set_navigationModeFile set_device_pixel_ratio
       ref unref ref_if unref_if asserted mbind option_bind] in H.

(** ** The widget *)

Section QuarterWidget.

#[local] Set Default Proof Using "Type".

(** The Qt version the file is compiled against. *)
Variable QT_VERSION : Z.

(** The macro [DEFAULT_NAVIGATIONFILE] of QuarterWidgetP.h, as [QUrl]
    parses it. *)
Variable DEFAULT_NAVIGATIONFILE : QUrl.

(** The world outside: name resolution, the files, the SCXML reader and
    the event manager's routing. *)
Variable QUrl_toLocalFile : QUrl -> string.
Variable ScXML_readFile : string -> option ScXMLStateMachine.
Variable QFile_readAll : string -> option string.
Variable ScXML_readBuffer : string -> option ScXMLStateMachine.
Variable SoEventManager_processEvent : ptr -> SoEvent -> World -> bool * World.

(** *** Cursors *)

Definition setStateCursor (state : string) (cursor : QCursor) (w : World)
    : option World :=
  m ← statecursormap w;
  Some (with_statecursormap (Some (<[state := cursor]> m)) w).

(** [QMap::value] answers a default-constructed cursor for a missing key. *)
Definition stateCursor (state : string) (w : World) : option QCursor :=
  m ← statecursormap w;
  Some (default ArrowCursor (m !! state)).

(** *** Render configuration *)

Definition setClearZBuffer (onoff : bool) (w : World) : World :=
  assign (set_clearzbuffer onoff) w.

Definition clearZBuffer (w : World) : bool := clearzbuffer (pimpl w).

Definition setClearWindow (onoff : bool) (w : World) : World :=
  assign (set_clearwindow onoff) w.

Definition clearWindow (w : World) : bool := clearwindow (pimpl w).

Definition setTransparencyType (type : Z) (w : World) : option World :=
  _ ← sorendermanager (pimpl w);
  w ← on_rendermanager (rm_setTransparencyType type) w;
  scheduleRedraw w.

Definition setRenderMode (mode : Z) (w : World) : option World :=
  _ ← sorendermanager (pimpl w);
  w ← on_rendermanager (rm_setRenderMode mode) w;
  scheduleRedraw w.

Definition setStereoMode (mode : Z) (w : World) : option World :=
  _ ← sorendermanager (pimpl w);
  w ← on_rendermanager (rm_setStereoMode mode) w;
  scheduleRedraw w.

Definition setBackgroundColor (color : QColor) (w : World) : option World :=
  let channel (c : Z) : float :=
    float_of_double
      (SbClamp double_ltb (double_div (double_of_int c) (double_of_int 255))
         (SpecFloat.S754_zero false) (double_of_int 1)) in
  let bgcolor :=
    {| col_r := channel (red color); col_g := channel (green color);
       col_b := channel (blue color); col_a := channel (alpha color) |} in
  w ← on_rendermanager (rm_setBackgroundColor bgcolor) w;
  scheduleRedraw w.

(** *** View commands *)

Definition viewAll (w : World) : option World :=
  let viewallevent := "sim.coin3d.coin.navigation.ViewAll" in
  p ← soeventmanager (pimpl w);
  em ← eventmanagers w !! p;
  for_active_statemachines (sm_queueEvent_processEventQueue viewallevent)
    (em_statemachines em) w.

Definition seek (w : World) : option World :=
  let seekevent := "sim.coin3d.coin.navigation.Seek" in
  p ← soeventmanager (pimpl w);
  em ← eventmanagers w !! p;
  for_active_statemachines (sm_queueEvent_processEventQueue seekevent)
    (em_statemachines em) w.

(** *** Scene *)

Definition setSceneGraph (node : option SoNode) (w : World) : option World :=
  if same_node node (scene (pimpl w)) then Some w
  else
    let w :=
      match scene (pimpl w) with
      | Some s => assign (set_scene None) (unref s w)
      | None => w
      end in
    '(camera, superscene, viewall, w) ←
      match node with
      | Some n =>
          let w := assign (set_scene (Some n)) w in
          let w := ref n w in
          let '(superscene, w) := new_node SoSeparator w in
          hl ← headlight (pimpl w);
          let superscene := addChild superscene hl in
          match searchForCamera n with
          | Some camera => Some (Some camera, Some (addChild superscene n), false, w)
          | None =>
              let '(camera, w) := new_node SoPerspectiveCamera w in
              let superscene := addChild superscene camera in
              Some (Some camera, Some (addChild superscene n), true, w)
          end
      | None => Some (None, None, false, w)
      end;
    w ← on_eventmanager (em_setCamera camera) w;
    w ← on_rendermanager (rm_setCamera camera) w;
    w ← on_eventmanager (em_setSceneGraph superscene) w;
    w ← on_rendermanager (rm_setSceneGraph superscene) w;
    w ← (if viewall : bool then viewAll w else Some w);
    Some (match superscene with
          | Some s => emit (Touch (addr s)) w
          | None => w
          end).

Definition getSceneGraph (w : World) : option SoNode := scene (pimpl w).

(** *** Managers *)

Definition setSoRenderManager (manager : option ptr) (w : World) : option World :=
  '(carrydata, scene, camera, vp) ←
    match sorendermanager (pimpl w), manager with
    | Some p, Some _ =>
        m ← rendermanagers w !! p;
        Some (true, rm_scene m, rm_camera m, rm_viewport m)
    | _, _ => Some (false, None, None, SbViewportRegion_default)
    end;
  let w := ref_if scene w in
  let w := ref_if camera w in
  w ← (if initialsorendermanager (pimpl w)
       then w ← delete_rendermanager (sorendermanager (pimpl w)) w;
            Some (assign (set_initialsorendermanager false) w)
       else Some w);
  let w := assign (set_sorendermanager manager) w in
  w ← (if carrydata : bool
       then w ← on_rendermanager (rm_setSceneGraph scene) w;
            w ← on_rendermanager (rm_setCamera camera) w;
            on_rendermanager (rm_setViewportRegion vp) w
       else Some w);
  let w := unref_if scene w in
  let w := unref_if camera w in
  Some w.

Definition getSoRenderManager (w : World) : option ptr := sorendermanager (pimpl w).

Definition setSoEventManager (manager : option ptr) (w : World) : option World :=
  '(carrydata, scene, camera, vp) ←
    match soeventmanager (pimpl w), manager with
    | Some p, Some _ =>
        m ← eventmanagers w !! p;
        Some (true, em_scene m, em_camera m, em_viewport m)
    | _, _ => Some (false, None, None, SbViewportRegion_default)
    end;
  let w := ref_if scene w in
  let w := ref_if camera w in
  w ← (if initialsoeventmanager (pimpl w)
       then w ← delete_eventmanager (soeventmanager (pimpl w)) w;
            Some (assign (set_initialsoeventmanager false) w)
       else Some w);
  let w := assign (set_soeventmanager manager) w in
  w ← (if carrydata : bool
       then w ← on_eventmanager (em_setSceneGraph scene) w;
            w ← on_eventmanager (em_setCamera camera) w;
            on_eventmanager (em_setViewportRegion vp) w
       else Some w);
  let w := unref_if scene w in
  let w := unref_if camera w in
  Some w.

Definition getSoEventManager (w : World) : option ptr := soeventmanager (pimpl w).

(** *** Painting *)

Definition updateDevicePixelRatio (host : Host) (w : World) : bool * World :=
  if 0x050600 <=? QT_VERSION then
    let dev_pix_ratio := host_devicePixelRatio host in
    if decide (device_pixel_ratio (pimpl w) ≠ dev_pix_ratio) then
      let w := assign (set_device_pixel_ratio dev_pix_ratio) w in
      (true, emit (DevicePixelRatioChanged dev_pix_ratio) w)
    else (false, w)
  else (false, w).

Definition devicePixelRatio (w : World) : Qc := device_pixel_ratio (pimpl w).

Definition resizeGL (host : Host) (width height : Z) (w : World) : option World :=
  let '(width, height, w) :=
    if 0x050600 <=? QT_VERSION then
      let '(_, w) := updateDevicePixelRatio host w in
      let dev_pix_ratio := devicePixelRatio w in
      (scaled dev_pix_ratio width, scaled dev_pix_ratio height, w)
    else (width, height, w) in
  let vp := SbViewportRegion_wh width height in
  w ← on_rendermanager (rm_setViewportRegion vp) w;
  on_eventmanager (em_setViewportRegion vp) w.

Definition actualRedraw (w : World) : option World :=
  p ← sorendermanager (pimpl w);
  _ ← rendermanagers w !! p;
  Some (emit (Render p (clearwindow (pimpl w)) (clearzbuffer (pimpl w))) w).

Definition paintGL (host : Host) (w : World) : option World :=
  w ← (if 0x050600 <=? QT_VERSION then
         let '(changed, w) := updateDevicePixelRatio host w in
         if changed then
           let dev_pix_ratio := devicePixelRatio w in
           let width := scaled dev_pix_ratio (host_width host) in
           let height := scaled dev_pix_ratio (host_height host) in
           let vp := SbViewportRegion_wh width height in
           w ← on_rendermanager (rm_setViewportRegion vp) w;
           on_eventmanager (em_setViewportRegion vp) w
         else Some w
       else Some w);
  _ ← asserted (host_isValid host);
  let w := assign (set_autoredrawenabled false) w in
  let w :=
    if processdelayqueue (pimpl w) && host_isDelaySensorPending host then
      let w := emit DoneCurrent w in
      let w := emit (ProcessDelayQueue false) w in
      emit MakeCurrent w
    else w in
  _ ← asserted (host_isValid host);
  w ← actualRedraw w;
  let w := assign (set_autoredrawenabled true) w in
  Some (assign (set_processdelayqueue true) w).

Definition redraw (w : World) : World :=
  let w := assign (set_processdelayqueue false) w in
  if 0x060000 <=? QT_VERSION then emit Update w else emit UpdateGL w.

(** *** Events *)

Definition processSoEvent (event : option SoEvent) (w : World)
    : option (bool * World) :=
  match event with
  | None => Some (false, w)
  | Some e =>
      match soeventmanager (pimpl w) with
      | None => Some (false, w)
      | Some p =>
          _ ← eventmanagers w !! p;
          Some (SoEventManager_processEvent p e w)
      end
  end.

(** *** Navigation *)

Definition addStateMachine (statemachine : ptr) (w : World) : option World :=
  w ← on_eventmanager (em_addSoScXMLStateMachine statemachine) w;
  p ← getSoRenderManager w;
  rm ← rendermanagers w !! p;
  w ← on_statemachine statemachine (sm_setSceneGraphRoot (rm_scene rm)) w;
  w ← on_statemachine statemachine (sm_setActiveCamera (rm_camera rm)) w;
  on_statemachine statemachine sm_addStateChangeCallback w.

Definition removeStateMachine (statemachine : ptr) (w : World) : option World :=
  w ← on_statemachine statemachine (sm_setSceneGraphRoot None) w;
  w ← on_statemachine statemachine (sm_setActiveCamera None) w;
  on_eventmanager (em_removeSoScXMLStateMachine statemachine) w.

Definition setNavigationModeFile (url : QUrl) (w : World) : option World :=
  resolved ←
    (if decide (url_scheme url = "coin") then
       let filename := url_path url in
       let filename :=
         match filename with
         | String "/"%char rest => rest
         | _ => filename
         end in
       Some (inr (url_scheme url +:+ ":" +:+ filename))
     else if decide (url_scheme url = "file") then
       Some (inr (QUrl_toLocalFile url))
     else if isEmpty url then
       match currentStateMachine (pimpl w) with
       | Some cur =>
           w ← removeStateMachine cur w;
           w ← delete_statemachine (Some cur) w;
           let w := assign (set_currentStateMachine None) w in
           Some (inl (assign (set_navigationModeFile url) w))
       | None => Some (inl w)
       end
     else
       Some (inl (emit (QDebug [DText (url_scheme url); DText "is not recognized"]) w)));
  match resolved with
  | inl w => Some w
  | inr filename =>
      let filenametmp := filename in
      let '(stateMachine, w) :=
        if String.prefix "coin:" filenametmp then
          new_statemachine (ScXML_readFile filenametmp) w
        else
          match QFile_readAll filenametmp with
          | Some fileContents => new_statemachine (ScXML_readBuffer fileContents) w
          | None => (None, w)
          end in
      match stateMachine ≫= (λ p, sm ← statemachines w !! p;
                                   if sm_isSoScXML sm then Some p else None) with
      | Some newsm =>
          w ← match currentStateMachine (pimpl w) with
              | Some cur =>
                  w ← removeStateMachine cur w;
                  delete_statemachine (Some cur) w
              | None => Some w
              end;
          w ← addStateMachine newsm w;
          w ← on_statemachine newsm sm_initialize w;
          let w := assign (set_currentStateMachine (Some newsm)) w in
          let w := assign (set_navigationModeFile url) w in
          if decide (DEFAULT_NAVIGATIONFILE = navigationModeFile (pimpl w)) then
            w ← setStateCursor "interact" ArrowCursor w;
            w ← setStateCursor "idle" OpenHandCursor w;
            w ← (if 0x040200 <=? QT_VERSION
                 then setStateCursor "rotate" ClosedHandCursor w
                 else Some w);
            w ← setStateCursor "pan" SizeAllCursor w;
            w ← setStateCursor "zoom" SizeVerCursor w;
            w ← setStateCursor "dolly" SizeVerCursor w;
            w ← setStateCursor "seek" CrossCursor w;
            setStateCursor "spin" OpenHandCursor w
          else Some w
      | None =>
          w ← delete_statemachine stateMachine w;
          let w := emit (QDebug [DText filename]) w in
          Some (emit (QDebug [DText "Unable to load"; DUrl url]) w)
      end
  end.

Definition resetNavigationModeFile (w : World) : option World :=
  setNavigationModeFile QUrl_null w.


(** *** Reading the render configuration back *)

Definition transparencyType (w : World) : option Z :=
  p ← sorendermanager (pimpl w);
  m ← rendermanagers w !! p;
  Some (rm_transparency m).

Definition renderMode (w : World) : option Z :=
  p ← sorendermanager (pimpl w);
  m ← rendermanagers w !! p;
  Some (rm_rendermode m).

Definition stereoMode (w : World) : option Z :=
  p ← sorendermanager (pimpl w);
  m ← rendermanagers w !! p;
  Some (rm_stereomode m).

(** *** The end of the widget

    [~QuarterWidget], up to its last two statements: these delete the event
    filter and the private object itself, after which there is no widget
    state left to speak of. *)


(** The widget and the second manager after a camera-less scene was
    installed. *)
Definition widget_with_scene : World :=
  default widget_and_manager (setSceneGraph (Some two_shapes) widget_and_manager).

(** ** Vocabulary of the statements *)

(** Everything but the trace agrees. *)
Definition same_but_trace (w w' : World) : Prop :=
  pimpl w' = pimpl w ∧ rendermanagers w' = rendermanagers w ∧
  eventmanagers w' = eventmanagers w ∧ statemachines w' = statemachines w ∧
  refcount w' = refcount w ∧ next_node w' = next_node w ∧
  statecursormap w' = statecursormap w ∧ calls w' = calls w.

(** The [coin] workaround: one leading separator of the path is dropped. *)
Definition without_leading_slash (path : string) : string :=
  match path with
  | String "/"%char rest => rest
  | _ => path
  end.

(** [url] has one of the two supported schemes and [filename] is the name
    the reader is then called with. *)
Definition resolves (url : QUrl) (filename : string) : Prop :=
  (url_scheme url = "coin" ∧
   filename = url_scheme url +:+ ":" +:+ without_leading_slash (url_path url)) ∨
  (url_scheme url = "file" ∧ filename = QUrl_toLocalFile url).

(** What reading [filename] yields: the Coin reader for [coin:] names,
    otherwise the file's contents handed to the buffer reader. *)
Definition read_statemachine (filename : string) : option ScXMLStateMachine :=
  if String.prefix "coin:" filename then ScXML_readFile filename
  else QFile_readAll filename ≫= ScXML_readBuffer.

(** The load fails: nothing could be read or parsed, or what was parsed is
    not a [SoScXMLStateMachine]. *)
Definition load_fails (filename : string) : Prop :=
  read_statemachine filename = None ∨
  ∃ sm, read_statemachine filename = Some sm ∧ sm_isSoScXML sm = false.

(** Between [w] and [w'] a redraw was requested from a render manager. *)
Definition requests_redraw (w w' : World) : Prop :=
  ∃ p events, trace w' = trace w ++ events ∧ ScheduleRedraw p ∈ events.

(** Between [w] and [w'] the scene was drawn. *)
Definition draws (w w' : World) : Prop :=
  ∃ p cw cz events, trace w' = trace w ++ events ∧ Render p cw cz ∈ events.

(** Between [w] and [w'] the delay queue was processed. *)
Definition flushes (w w' : World) : Prop :=
  ∃ events, trace w' = trace w ++ events ∧ ProcessDelayQueue false ∈ events.

(** Both managers are in place. *)
Definition managed (w : World) : Prop :=
  (∃ p, sorendermanager (pimpl w) = Some p ∧ is_Some (rendermanagers w !! p)) ∧
  (∃ p, soeventmanager (pimpl w) = Some p ∧ is_Some (eventmanagers w !! p)).

(** What a paint adds to the trace before it draws. *)
Definition flush_bracket (flush : bool) : list Event :=
  if flush then [DoneCurrent; ProcessDelayQueue false; MakeCurrent] else [].

(** The reading under which a second paint in a row must not process the
    delay queue again. *)
Definition no_double_flush (host1 host2 : Host) (w : World) : Prop :=
  host_isDelaySensorPending host1 = true ->
  host_isDelaySensorPending host2 = true ->
  ∀ w1 w2, paintGL host1 w = Some w1 -> paintGL host2 w1 = Some w2 ->
           ¬ flushes w1 w2.





(** The state machine the widget holds, if any, exists. *)
Definition navigation_alive (w : World) : Prop :=
  ∀ cur, currentStateMachine (pimpl w) = Some cur -> is_Some (statemachines w !! cur).

(** The cursor table after the bindings of the default navigation file
    were added to [m], in the order the code adds them. *)
Definition with_default_cursors (m : gmap string QCursor) : gmap string QCursor :=
  let m := <["interact" := ArrowCursor]> m in
  let m := <["idle" := OpenHandCursor]> m in
  let m := if 0x040200 <=? QT_VERSION then <["rotate" := ClosedHandCursor]> m else m in
  let m := <["pan" := SizeAllCursor]> m in
  let m := <["zoom" := SizeVerCursor]> m in
  let m := <["dolly" := SizeVerCursor]> m in
  let m := <["seek" := CrossCursor]> m in
  <["spin" := OpenHandCursor]> m.

(** The render manager and the event manager look at the same scene
    through the same camera. *)
Definition same_view (w : World) : Prop :=
  ∃ pr rm pe em,
    sorendermanager (pimpl w) = Some pr ∧ rendermanagers w !! pr = Some rm ∧
    soeventmanager (pimpl w) = Some pe ∧ eventmanagers w !! pe = Some em ∧
    rm_scene rm = em_scene em ∧ rm_camera rm = em_camera em.

(** They use the same viewport region. *)
Definition same_viewport (w : World) : Prop :=
  ∃ pr rm pe em,
    sorendermanager (pimpl w) = Some pr ∧ rendermanagers w !! pr = Some rm ∧
    soeventmanager (pimpl w) = Some pe ∧ eventmanagers w !! pe = Some em ∧
    rm_viewport rm = em_viewport em.

(** The references the widget holds: one on the headlight and one on the
    installed scene, and no other. *)
Definition held (n : option SoNode) (a : ptr) : Z :=
  match n with
  | Some x => if decide (addr x = a) then 1 else 0
  | None => 0
  end.

Definition holds_its_nodes (w : World) : Prop :=
  ∀ a, refcount_of w a = held (headlight (pimpl w)) a + held (scene (pimpl w)) a.

(** What a channel [c] of a [QColor] becomes in an [SbColor4f]:
    [c / 255.0] in [double], held between [0.0] and [1.0], as a [float]. *)
Definition normalized (c : Z) : float :=
  float_of_double
    (SbClamp double_ltb (double_div (double_of_int c) (double_of_int 255))
       (SpecFloat.S754_zero false) (double_of_int 1)).

Definition SbColor4f_of_QColor (color : QColor) : SbColor4f :=
  {| col_r := normalized (red color); col_g := normalized (green color);
     col_b := normalized (blue color); col_a := normalized (alpha color) |}.

(** The number a finite [float] or [double] stands for. *)
Definition float_value (x : float) : Q :=
  match x with
  | SpecFloat.S754_finite s m e =>
      (inject_Z (if s then Z.neg m else Z.pos m) * 2 ^ e)%Q
  | _ => 0%Q
  end.

(** [x] lies between [0.0] and [1.0] and within [2^-25], half the distance
    between neighbouring [float]s below 1, of [c / 255]. *)
Definition close_to_channel (c : Z) (x : float) : bool :=
  SpecFloat.SFleb (SpecFloat.S754_zero false) x &&
  SpecFloat.SFleb x (float_of_double (double_of_int 1)) &&
  Qle_bool (Qabs (float_value x - (c # 255))) (1 # 33554432).

(** [P] holds of the [n] integers from [lo] on. *)
Definition holds_from (P : Z -> bool) (lo : Z) (n : positive) : bool :=
  snd (Pos.iter (λ '(k, ok), (k + 1, ok && P k)) (lo, true) n).

(** The state machines of the list [l] that are running in [w], in the
    order of the list and as often as they are listed. *)
Definition active_machines (w : World) (l : list ptr) : list ptr :=
  List.filter (λ c, from_option sm_active false (statemachines w !! c)) l.

(** The view-all command as it reaches a state machine. *)
Definition view_all_call (c : ptr) : Call :=
  OnStateMachine c (sm_queueEvent_processEventQueue "sim.coin3d.coin.navigation.ViewAll").

(** ** Properties *)

(** *** Navigation files *)

Lemma isEmpty_scheme (url : QUrl) : isEmpty url = true -> url_scheme url = "".
Proof.
  unfold isEmpty. intros H. apply bool_decide_eq_true in H. by subst.
Qed.

(** *** Calls through the widget's pointers *)

Lemma on_rendermanager_eq f (w : World) (p : ptr) (m : SoRenderManager) :
  sorendermanager (pimpl w) = Some p ->
  rendermanagers w !! p = Some m ->
  on_rendermanager f w =
    Some (call_rendermanager p f m w).
Proof. intros Hp Hm. unfold on_rendermanager. by rewrite Hp; fields; rewrite Hm. Qed.

Lemma on_eventmanager_eq f (w : World) (p : ptr) (m : SoEventManager) :
  soeventmanager (pimpl w) = Some p ->
  eventmanagers w !! p = Some m ->
  on_eventmanager f w =
    Some (call_eventmanager p f m w).
Proof. intros Hp Hm. unfold on_eventmanager. by rewrite Hp; fields; rewrite Hm. Qed.

Lemma on_statemachine_eq f (w : World) (sm : ptr) (m : ScXMLStateMachine) :
  statemachines w !! sm = Some m ->
  on_statemachine sm f w =
    Some (call_statemachine sm f m w).
Proof. intros Hm. unfold on_statemachine. by rewrite Hm. Qed.

(** C10: with an empty URL and no state machine loaded,
    [setNavigationModeFile] changes nothing at all; in particular the
    stored [navigationModeFile] keeps its value. *)
Theorem setNavigationModeFile_empty_unloaded (url : QUrl) (w : World) :
  isEmpty url = true ->
  currentStateMachine (pimpl w) = None ->
  setNavigationModeFile url w = Some w.
Proof.
  intros Hempty Hnone. unfold setNavigationModeFile.
  rewrite (isEmpty_scheme url Hempty).
  repeat (case_decide; [discriminate|]).
  rewrite Hempty, Hnone. reflexivity.
Qed.

(** C6: a URL that is not empty and whose scheme is neither [coin] nor
    [file] is reported as not recognized on the debug channel, and nothing
    else happens: the loaded state machine, if any, stays attached and the
    stored [navigationModeFile] is not modified. *)
Theorem setNavigationModeFile_unsupported_scheme (url : QUrl) (w : World) :
  url_scheme url ≠ "coin" ->
  url_scheme url ≠ "file" ->
  isEmpty url = false ->
  ∃ w', setNavigationModeFile url w = Some w' ∧
        trace w' = trace w ++ [QDebug [DText (url_scheme url); DText "is not recognized"]] ∧
        same_but_trace w w' ∧
        currentStateMachine (pimpl w') = currentStateMachine (pimpl w) ∧
        navigationModeFile (pimpl w') = navigationModeFile (pimpl w).
Proof.
  intros Hcoin Hfile Hne. unfold setNavigationModeFile.
  repeat (case_decide; [contradiction|]). rewrite Hne. simpl.
  eexists; split; [reflexivity|]. by repeat split.
Qed.

(** Reading allocates the object the reader returns. *)
Lemma read_step (filename : string) (w : World) :
  (if String.prefix "coin:" filename
   then new_statemachine (ScXML_readFile filename) w
   else match QFile_readAll filename with
        | Some fileContents => new_statemachine (ScXML_readBuffer fileContents) w
        | None => (None, w)
        end) = new_statemachine (read_statemachine filename) w.
Proof.
  unfold read_statemachine. destruct (String.prefix _ _); [done|].
  by destruct (QFile_readAll filename).
Qed.

Lemma fresh_statemachine (w : World) :
  statemachines w !! fresh (dom (statemachines w)) = None.
Proof. apply not_elem_of_dom, is_fresh. Qed.

(** The first part of [setNavigationModeFile]: a supported scheme yields
    the file name and the function goes on. *)
Lemma resolved_step (url : QUrl) (filename : string) (w : World) :
  resolves url filename ->
  (if decide (url_scheme url = "coin")
   then Some (inr (url_scheme url +:+ ":" +:+
                    match url_path url with
                    | String "/"%char rest => rest
                    | _ => url_path url
                    end))
   else if decide (url_scheme url = "file")
        then Some (inr (QUrl_toLocalFile url))
        else if isEmpty url
             then match currentStateMachine (pimpl w) with
                  | Some cur =>
                      w0 ← removeStateMachine cur w;
                      w1 ← delete_statemachine (Some cur) w0;
                      Some (inl (assign (set_navigationModeFile url)
                                   (assign (set_currentStateMachine None) w1)))
                  | None => Some (inl w)
                  end
             else Some (inl (emit (QDebug [DText (url_scheme url);
                                           DText "is not recognized"]) w)))
  = Some (inr filename) :> option (World + string).
Proof.
  intros [[Hs ->]|[Hs ->]].
  - rewrite decide_True by done. reflexivity.
  - rewrite decide_False by (rewrite Hs; discriminate).
    rewrite decide_True by done. reflexivity.
Qed.

(** The part of [setNavigationModeFile] after the scheme is resolved, when
    the load fails. *)
Lemma failed_load_step (url : QUrl) (filename : string) (w : World) :
  resolves url filename ->
  load_fails filename ->
  setNavigationModeFile url w =
    Some (emit (QDebug [DText "Unable to load"; DUrl url])
            (emit (QDebug [DText filename]) w)).
Proof.
  intros Hres Hfail. unfold setNavigationModeFile.
  rewrite (resolved_step url filename w Hres). fields. rewrite read_step.
  destruct Hfail as [Hnone|(sm & Hsome & Htype)].
  - rewrite Hnone. reflexivity.
  - rewrite Hsome. unfold new_statemachine. cbv beta iota zeta.
    cbn [mbind option_bind statemachines with_statemachines].
    rewrite lookup_insert_eq. cbn [mbind option_bind]. rewrite Htype.
    cbn [mbind option_bind delete_statemachine statemachines with_statemachines].
    rewrite lookup_insert_eq. cbn [mbind option_bind].
    unfold emit, with_statemachines. simpl.
    rewrite delete_insert_eq, (delete_id _ _ (fresh_statemachine w)).
    reflexivity.
Qed.

(** C7: when the scheme is supported but the load fails (nothing readable,
    nothing parsed, or an object of another type), the object that was
    read is deleted again, the failure is reported on the debug channel,
    and the previous state stands: the state machine that was active, if
    any, stays attached and [navigationModeFile] keeps its value. *)
Theorem setNavigationModeFile_load_failed (url : QUrl) (filename : string) (w : World) :
  resolves url filename ->
  load_fails filename ->
  ∃ w', setNavigationModeFile url w = Some w' ∧
        trace w' = trace w ++ [QDebug [DText filename];
                               QDebug [DText "Unable to load"; DUrl url]] ∧
        same_but_trace w w' ∧
        statemachines w' = statemachines w ∧
        currentStateMachine (pimpl w') = currentStateMachine (pimpl w) ∧
        navigationModeFile (pimpl w') = navigationModeFile (pimpl w).
Proof.
  intros Hres Hfail. eexists. split; [by apply failed_load_step|].
  simpl. rewrite <- app_assoc. by repeat split.
Qed.

(** *** Events *)

(** C9: [processSoEvent] answers [false] and leaves the world alone,
    whatever the event manager would have said, when the event is null or
    no event manager is installed; otherwise its answer and its effect are
    exactly those of the event manager's [processEvent]. *)
Theorem processSoEvent_dispatch (event : option SoEvent) (w : World) :
  (event = None ∨ soeventmanager (pimpl w) = None ->
   processSoEvent event w = Some (false, w)) ∧
  (∀ e p, event = Some e -> soeventmanager (pimpl w) = Some p ->
          is_Some (eventmanagers w !! p) ->
          processSoEvent event w = Some (SoEventManager_processEvent p e w)).
Proof.
  split.
  - intros [->|Hnull]; [done|]. unfold processSoEvent.
    destruct event; [|done]. by rewrite Hnull.
  - intros e p -> Hp [m Hm]. unfold processSoEvent. rewrite Hp, Hm. done.
Qed.

(** *** Managers *)

Lemma refcount_of_ref (n : SoNode) (w : World) (a : ptr) :
  refcount_of (ref n w) a =
    if decide (addr n = a) then refcount_of w a + 1 else refcount_of w a.
Proof.
  unfold refcount_of, ref. fields. rewrite lookup_insert.
  case_decide; [by subst|done].
Qed.

Lemma refcount_of_unref (n : SoNode) (w : World) (a : ptr) :
  refcount_of (unref n w) a =
    if decide (addr n = a) then refcount_of w a - 1 else refcount_of w a.
Proof.
  unfold refcount_of, unref. fields. rewrite lookup_insert.
  case_decide; [by subst|done].
Qed.

Lemma refcount_of_frame (w w' : World) (a : ptr) :
  refcount w' = refcount w -> refcount_of w' a = refcount_of w a.
Proof. unfold refcount_of. by intros ->. Qed.

Lemma ref_if_pimpl (n : option SoNode) (w : World) : pimpl (ref_if n w) = pimpl w.
Proof. by destruct n. Qed.

Lemma unref_if_pimpl (n : option SoNode) (w : World) : pimpl (unref_if n w) = pimpl w.
Proof. by destruct n. Qed.

Lemma ref_if_rendermanagers (n : option SoNode) (w : World) :
  rendermanagers (ref_if n w) = rendermanagers w.
Proof. by destruct n. Qed.

Lemma unref_if_rendermanagers (n : option SoNode) (w : World) :
  rendermanagers (unref_if n w) = rendermanagers w.
Proof. by destruct n. Qed.

(** The references taken around the swap are all given back. *)
Lemma ref_unref_balanced (s c : option SoNode) (w0 w1 : World) (a : ptr) :
  refcount w1 = refcount (ref_if c (ref_if s w0)) ->
  refcount_of (unref_if c (unref_if s w1)) a = refcount_of w0 a.
Proof.
  intros Hrc.
  assert (Hw1 : ∀ b, refcount_of w1 b = refcount_of (ref_if c (ref_if s w0)) b)
    by (intros b; by apply refcount_of_frame).
  destruct s as [s|], c as [c|]; cbn [ref_if unref_if] in *;
    rewrite ?refcount_of_unref, ?Hw1, ?refcount_of_ref;
    repeat case_decide; lia.
Qed.

(** X20: when the widget owns its render manager and is handed another
    one, the new manager ends up with the scene graph, the camera and the
    viewport region of the outgoing one, which is deleted only after they
    were read; the widget then points at the new manager and no longer
    counts it as its own.  The other settings of the new manager and
    every reference count are as before. *)
Theorem setSoRenderManager_carries (w : World) (old new : ptr)
    (m_old m_new : SoRenderManager) :
  sorendermanager (pimpl w) = Some old ->
  initialsorendermanager (pimpl w) = true ->
  rendermanagers w !! old = Some m_old ->
  rendermanagers w !! new = Some m_new ->
  new ≠ old ->
  ∃ w' m', setSoRenderManager (Some new) w = Some w' ∧
           sorendermanager (pimpl w') = Some new ∧
           initialsorendermanager (pimpl w') = false ∧
           rendermanagers w' !! old = None ∧
           rendermanagers w' !! new = Some m' ∧
           rm_scene m' = rm_scene m_old ∧
           rm_camera m' = rm_camera m_old ∧
           rm_viewport m' = rm_viewport m_old ∧
           rm_background m' = rm_background m_new ∧
           rm_transparency m' = rm_transparency m_new ∧
           rm_rendermode m' = rm_rendermode m_new ∧
           rm_stereomode m' = rm_stereomode m_new ∧
           (∀ a, refcount_of w' a = refcount_of w a).
Proof.
  intros Hcur Hown Hold Hnew Hne.
  unfold setSoRenderManager. rewrite Hcur. fields. rewrite Hold. fields.
  rewrite !ref_if_pimpl, Hown, Hcur. unfold delete_rendermanager, on_rendermanager.
  rewrite !ref_if_rendermanagers, Hold. fields.
  rewrite lookup_delete_ne, !ref_if_rendermanagers, Hnew by done. fields.
  repeat (rewrite lookup_insert_eq; fields).
  eexists _, (rm_setViewportRegion (rm_viewport m_old)
                (rm_setCamera (rm_camera m_old)
                   (rm_setSceneGraph (rm_scene m_old) m_new))).
  split; [reflexivity|].
  rewrite !unref_if_pimpl, !unref_if_rendermanagers. fields.
  split; [done|]. split; [done|].
  split; [by rewrite !lookup_insert_ne, lookup_delete_eq|].
  split; [by rewrite lookup_insert_eq|].
  do 7 (split; [reflexivity|]).
  intros a. apply ref_unref_balanced. reflexivity.
Qed.

(** Handing the widget the manager it owns is not a swap: the manager is
    deleted and then called through the stored pointer. *)
Remark setSoRenderManager_own_manager (w : World) (old : ptr) :
  sorendermanager (pimpl w) = Some old ->
  initialsorendermanager (pimpl w) = true ->
  setSoRenderManager (Some old) w = None.
Proof.
  intros Hcur Hown. unfold setSoRenderManager. rewrite Hcur. fields.
  destruct (rendermanagers w !! old) as [m|] eqn:Hold; [|done]. fields.
  rewrite !ref_if_pimpl, Hown, Hcur. unfold delete_rendermanager, on_rendermanager.
  rewrite !ref_if_rendermanagers, Hold. fields.
  by rewrite lookup_delete_eq.
Qed.

(** *** Render configuration *)

Lemma scheduleRedraw_after (f : SoRenderManager -> SoRenderManager) (w : World)
    (p : ptr) (m : SoRenderManager) :
  sorendermanager (pimpl w) = Some p ->
  rendermanagers w !! p = Some m ->
  (w0 ← on_rendermanager f w; scheduleRedraw w0) =
    Some (emit (ScheduleRedraw p)
            (call_rendermanager p f m w)).
Proof.
  intros Hp Hm. unfold on_rendermanager, scheduleRedraw. rewrite Hp. fields.
  rewrite Hm. fields. rewrite Hp. fields. by rewrite lookup_insert_eq.
Qed.

(** C3, as the code has it: the setters of background colour,
    transparency type, render mode and stereo mode store the value in the
    render manager and ask it for one scheduled redraw, without drawing;
    the setters of the two clear flags only store the flag and ask for
    nothing. *)
Theorem render_setters_redraw (w : World) (p : ptr) (m : SoRenderManager) :
  sorendermanager (pimpl w) = Some p ->
  rendermanagers w !! p = Some m ->
  (∀ color, ∃ w', setBackgroundColor color w = Some w' ∧
                  trace w' = trace w ++ [ScheduleRedraw p] ∧
                  rendermanagers w' !! p =
                    Some (rm_setBackgroundColor (SbColor4f_of_QColor color) m)) ∧
  (∀ type, ∃ w', setTransparencyType type w = Some w' ∧
                 trace w' = trace w ++ [ScheduleRedraw p] ∧
                 rendermanagers w' !! p = Some (rm_setTransparencyType type m)) ∧
  (∀ mode, ∃ w', setRenderMode mode w = Some w' ∧
                 trace w' = trace w ++ [ScheduleRedraw p] ∧
                 rendermanagers w' !! p = Some (rm_setRenderMode mode m)) ∧
  (∀ mode, ∃ w', setStereoMode mode w = Some w' ∧
                 trace w' = trace w ++ [ScheduleRedraw p] ∧
                 rendermanagers w' !! p = Some (rm_setStereoMode mode m)) ∧
  (∀ onoff, trace (setClearWindow onoff w) = trace w ∧
            clearWindow (setClearWindow onoff w) = onoff) ∧
  (∀ onoff, trace (setClearZBuffer onoff w) = trace w ∧
            clearZBuffer (setClearZBuffer onoff w) = onoff).
Proof.
  intros Hp Hm. repeat split.
  - intros color. eexists. split.
    + unfold setBackgroundColor. cbv zeta. by apply scheduleRedraw_after.
    + split; [reflexivity|]. fields. by rewrite lookup_insert_eq.
  - intros type. eexists. unfold setTransparencyType. rewrite Hp. fields.
    rewrite (scheduleRedraw_after _ w p m Hp Hm).
    split; [reflexivity|]. fields. by rewrite lookup_insert_eq.
  - intros mode. eexists. unfold setRenderMode. rewrite Hp. fields.
    rewrite (scheduleRedraw_after _ w p m Hp Hm).
    split; [reflexivity|]. fields. by rewrite lookup_insert_eq.
  - intros mode. eexists. unfold setStereoMode. rewrite Hp. fields.
    rewrite (scheduleRedraw_after _ w p m Hp Hm).
    split; [reflexivity|]. fields. by rewrite lookup_insert_eq.
Qed.

(** *** Painting *)

Lemma flush_bracket_flushes (flush : bool) :
  ProcessDelayQueue false ∈ flush_bracket flush ↔ flush = true.
Proof.
  destruct flush; cbn [flush_bracket]; split; try done.
  - intros _. rewrite !elem_of_cons. auto.
  - intros H. by apply elem_of_nil in H.
Qed.

(** One paint, step by step: the pixel-ratio update may announce a new
    ratio; then, if the flag is set and sensors are pending, the context
    is released, the delay queue processed and the context taken back;
    then the scene is drawn; the flag is set on the way out. *)
Lemma paintGL_runs (host : Host) (w : World) :
  managed w ->
  host_isValid host = true ->
  ∃ w' p pre,
    paintGL host w = Some w' ∧
    sorendermanager (pimpl w) = Some p ∧
    trace w' = trace w ++ pre
               ++ flush_bracket (processdelayqueue (pimpl w)
                                 && host_isDelaySensorPending host)
               ++ [Render p (clearwindow (pimpl w)) (clearzbuffer (pimpl w))] ∧
    (pre = [] ∨ pre = [DevicePixelRatioChanged (host_devicePixelRatio host)]) ∧
    processdelayqueue (pimpl w') = true ∧
    managed w'.
Proof.
  intros [(pr & Hpr & mr & Hmr) (pe & Hpe & me & Hme)] Hvalid.
  unfold paintGL, updateDevicePixelRatio, on_rendermanager, on_eventmanager,
    actualRedraw.
  rewrite Hvalid.
  destruct (0x050600 <=? QT_VERSION); [case_decide|];
    destruct (processdelayqueue (pimpl w) && host_isDelaySensorPending host)
      eqn:Hflush.
  1,2: eexists _, pr, [DevicePixelRatioChanged (host_devicePixelRatio host)].
  3-6: eexists _, pr, [].
  all: fields; rewrite ?Hpr; fields; rewrite ?Hmr; fields; rewrite ?Hpe; fields;
    rewrite ?Hme; fields; rewrite ?Hflush; fields; rewrite ?Hpr; fields;
    rewrite ?lookup_insert_eq, ?Hmr; fields.
  all: split; [reflexivity|]; fields.
  all: split; [done|]; split; [by rewrite <- ?app_assoc|].
  all: split; [by (left + right)|]; split; [done|].
  all: split; eexists; (split; [eassumption|]); fields;
    rewrite ?lookup_insert_eq; eauto.
Qed.

Lemma managed_redraw (w : World) : managed w -> managed (redraw w).
Proof. unfold managed, redraw. by destruct (0x060000 <=? QT_VERSION). Qed.

Lemma redraw_clears_flag (w : World) : processdelayqueue (pimpl (redraw w)) = false.
Proof. unfold redraw. by destruct (0x060000 <=? QT_VERSION). Qed.

(** A paint right after another one processes the delay queue whenever
    sensors are pending. *)
Lemma second_paint_flushes (host1 host2 : Host) (w : World) :
  managed w ->
  host_isValid host1 = true ->
  host_isValid host2 = true ->
  host_isDelaySensorPending host2 = true ->
  ∃ w1 w2 pre p cw cz,
    paintGL host1 w = Some w1 ∧ paintGL host2 w1 = Some w2 ∧
    trace w2 = trace w1 ++ pre ++ [DoneCurrent; ProcessDelayQueue false;
                                   MakeCurrent; Render p cw cz].
Proof.
  intros Hm Hv1 Hv2 Hpending.
  destruct (paintGL_runs host1 w Hm Hv1)
    as (w1 & p1 & pre1 & Hrun1 & _ & _ & _ & Hflag & Hm1).
  destruct (paintGL_runs host2 w1 Hm1 Hv2)
    as (w2 & p2 & pre2 & Hrun2 & _ & Htrace & _ & _ & _).
  rewrite Hflag, Hpending in Htrace. cbn [andb flush_bracket] in Htrace.
  eexists w1, w2, pre2, p2, _, _. split; [done|]. split; [done|]. exact Htrace.
Qed.

(** C2, as the code has it: the first paint ends by setting
    [processdelayqueue], so a second paint that follows with no [redraw]
    in between does process the pending delay queue, inside the
    release/reacquire bracket and before it draws; the queue is left
    alone only by the paint that follows a call of [redraw]. *)
Theorem paintGL_twice (host1 host2 : Host) (w : World) :
  managed w ->
  host_isValid host1 = true ->
  host_isValid host2 = true ->
  host_isDelaySensorPending host2 = true ->
  ∃ w1 w2 w3 pre p cw cz,
    paintGL host1 w = Some w1 ∧
    paintGL host2 w1 = Some w2 ∧
    trace w2 = trace w1 ++ pre ++ [DoneCurrent; ProcessDelayQueue false;
                                   MakeCurrent; Render p cw cz] ∧
    flushes w1 w2 ∧
    paintGL host2 (redraw w1) = Some w3 ∧ ¬ flushes (redraw w1) w3.
Proof.
  intros Hm Hv1 Hv2 Hpending.
  destruct (second_paint_flushes host1 host2 w Hm Hv1 Hv2 Hpending)
    as (w1 & w2 & pre & p & cw & cz & Hrun1 & Hrun2 & Htrace).
  destruct (paintGL_runs host1 w Hm Hv1)
    as (w1' & _ & _ & Hrun1' & _ & _ & _ & _ & Hm1).
  assert (w1' = w1) as -> by (rewrite Hrun1 in Hrun1'; by injection Hrun1').
  destruct (paintGL_runs host2 (redraw w1) (managed_redraw w1 Hm1) Hv2)
    as (w3 & p3 & pre3 & Hrun3 & _ & Htrace3 & Hpre3 & _ & _).
  exists w1, w2, w3, pre, p, cw, cz. repeat split; try done.
  - eexists. split; [exact Htrace|].
    rewrite elem_of_app, !elem_of_cons. auto.
  - intros (events & Hevents & Hin).
    rewrite redraw_clears_flag in Htrace3. cbn [andb flush_bracket] in Htrace3.
    rewrite Htrace3 in Hevents. apply app_inv_head in Hevents. subst events.
    destruct Hpre3 as [->| ->];
      rewrite ?elem_of_app, ?elem_of_cons, ?elem_of_nil in Hin;
      repeat (destruct Hin as [Hin|Hin]; try discriminate Hin); done.
Qed.

(** *** Scene *)

Lemma find_app {A} (f : A -> bool) (l1 l2 : list A) :
  List.find f (l1 ++ l2) =
    match List.find f l1 with
    | Some x => Some x
    | None => List.find f l2
    end.
Proof. induction l1 as [|x l1 IH]; cbn; [done|]. by destruct (f x). Qed.

(** The camera search returns the first camera of the depth-first
    traversal. *)
Lemma searchForCamera_first (n : SoNode) :
  searchForCamera n = List.find isCamera (traversal n).
Proof.
  induction n as [a t cs IH] using SoNode_children_ind.
  cbn [searchForCamera traversal List.find]. unfold isCamera at 1. cbn [type].
  destruct (isCameraType t); [done|].
  induction IH as [|c cs' Hc _ IHcs]; [done|].
  rewrite find_app, <- Hc. destruct (searchForCamera c); [done|]. exact IHcs.
Qed.

Lemma find_camera (n cam : SoNode) :
  List.find isCamera (traversal n) = Some cam ->
  cam ∈ traversal n ∧ isCamera cam = true.
Proof.
  intros H. apply List.find_some in H as [Hin Hcam].
  split; [by apply list_elem_of_In|done].
Qed.

Lemma same_node_refl (n : option SoNode) : same_node n n = true.
Proof. destruct n; cbn; [by apply bool_decide_eq_true|done]. Qed.

Lemma on_eventmanager_pimpl f (w w' : World) :
  on_eventmanager f w = Some w' -> pimpl w' = pimpl w.
Proof.
  unfold on_eventmanager. intros H.
  apply bind_Some in H as (p & _ & H). apply bind_Some in H as (m & _ & H).
  by simplify_eq.
Qed.

Lemma on_rendermanager_pimpl f (w w' : World) :
  on_rendermanager f w = Some w' -> pimpl w' = pimpl w.
Proof.
  unfold on_rendermanager. intros H.
  apply bind_Some in H as (p & _ & H). apply bind_Some in H as (m & _ & H).
  by simplify_eq.
Qed.

(** The loop of [viewAll] and [seek] touches state machines only. *)
Lemma for_active_statemachines_frame body (l : list ptr) (w w' : World) :
  for_active_statemachines body l w = Some w' ->
  pimpl w' = pimpl w ∧ rendermanagers w' = rendermanagers w ∧
  eventmanagers w' = eventmanagers w ∧ refcount w' = refcount w ∧
  next_node w' = next_node w ∧ statecursormap w' = statecursormap w ∧
  trace w' = trace w.
Proof.
  revert w. induction l as [|c l IH]; intros w H; cbn in H.
  - by simplify_eq.
  - apply bind_Some in H as (sm & _ & H). apply IH in H.
    by destruct (sm_active sm).
Qed.

(** It runs to the end when every listed machine exists. *)
Lemma for_active_statemachines_runs body (l : list ptr) (w : World) :
  Forall (λ c, is_Some (statemachines w !! c)) l ->
  is_Some (for_active_statemachines body l w).
Proof.
  revert w. induction l as [|c l IH]; intros w Hall; cbn; [done|].
  apply Forall_cons_1 in Hall as [[sm Hsm] Hall]. rewrite Hsm. fields.
  apply IH. apply (Forall_impl _ _ _ Hall). intros c' Hc'.
  destruct (sm_active sm); [|done]. fields.
  rewrite lookup_insert_is_Some. destruct (decide (c = c')); auto.
Qed.

(** Every active machine gets [body] once for each time it is listed. *)
Lemma for_active_statemachines_lookup body (l : list ptr) (w w' : World) (c : ptr) :
  (∀ m, sm_active (body m) = sm_active m) ->
  for_active_statemachines body l w = Some w' ->
  statemachines w' !! c =
    (λ sm, if sm_active sm then Nat.iter (count_occ Pos.eq_dec l c) body sm else sm)
      <$> statemachines w !! c.
Proof.
  intros Hbody. revert w. induction l as [|x l IH]; intros w H; cbn in H.
  - simplify_eq. cbn. destruct (statemachines w' !! c) as [sm|]; [|done].
    cbn. by destruct (sm_active sm).
  - apply bind_Some in H as (sm & Hsm & H). apply IH in H. rewrite H. clear H.
    cbn [count_occ]. destruct (Pos.eq_dec x c) as [->|Hne].
    + rewrite Hsm. destruct (sm_active sm) eqn:Hact; fields.
      * rewrite lookup_insert_eq. cbn. rewrite Hbody, Hact.
        f_equal. apply Nat.iter_swap.
      * rewrite Hsm. cbn. by rewrite Hact.
    + destruct (sm_active sm); fields; [|done].
      by rewrite lookup_insert_ne.
Qed.

(** The calls of the loop: one per running machine of the list, in the
    order of the list. *)
Lemma for_active_statemachines_calls body (l : list ptr) (w w' : World) :
  (∀ m, sm_active (body m) = sm_active m) ->
  for_active_statemachines body l w = Some w' ->
  calls w' = calls w ++ map (λ c, OnStateMachine c body) (active_machines w l).
Proof.
  intros Hbody. unfold active_machines.
  revert w. induction l as [|x l IH]; intros w H; cbn in H.
  - simplify_eq. cbn. by rewrite app_nil_r.
  - apply bind_Some in H as (sm & Hsm & H). apply IH in H. rewrite H. clear H IH.
    cbn [List.filter]. rewrite Hsm. cbn [from_option].
    destruct (sm_active sm) eqn:Hact; fields; [|done].
    rewrite <- app_assoc. cbn [map app]. do 3 f_equal.
    apply List.filter_ext. intros c.
    destruct (decide (x = c)) as [->|Hne].
    + rewrite lookup_insert_eq, Hsm. cbn. by rewrite Hbody.
    + by rewrite lookup_insert_ne.
Qed.

Lemma viewAll_frame (w w' : World) :
  viewAll w = Some w' ->
  pimpl w' = pimpl w ∧ rendermanagers w' = rendermanagers w ∧
  eventmanagers w' = eventmanagers w ∧ refcount w' = refcount w ∧
  next_node w' = next_node w ∧ statecursormap w' = statecursormap w ∧
  trace w' = trace w.
Proof.
  unfold viewAll. intros H. cbv zeta in H.
  apply bind_Some in H as (p & _ & H). apply bind_Some in H as (em & _ & H).
  by apply for_active_statemachines_frame in H.
Qed.

(** After [setSceneGraph node], the widget's scene pointer is [node]. *)
Lemma setSceneGraph_scene (node : option SoNode) (w w' : World) :
  setSceneGraph node w = Some w' ->
  same_node node (scene (pimpl w)) = false ->
  scene (pimpl w') = node.
Proof.
  intros H Hdiff. unfold setSceneGraph in H. rewrite Hdiff in H.
  apply bind_Some in H as ([[[camera superscene] viewall] w0] & Hbuild & H).
  apply bind_Some in H as (w1 & H1 & H). apply bind_Some in H as (w2 & H2 & H).
  apply bind_Some in H as (w3 & H3 & H). apply bind_Some in H as (w4 & H4 & H).
  apply bind_Some in H as (w5 & H5 & H).
  apply on_eventmanager_pimpl in H1, H3. apply on_rendermanager_pimpl in H2, H4.
  assert (pimpl w5 = pimpl w4) as Hp5.
  { destruct viewall; [by apply viewAll_frame in H5 as [? _]|by simplify_eq]. }
  assert (pimpl w' = pimpl w5) as Hp'.
  { simplify_eq. by destruct superscene. }
  rewrite Hp', Hp5, H4, H3, H2, H1. clear -Hbuild.
  destruct node as [n|].
  - cbn [new_node] in Hbuild. fields_in Hbuild.
    destruct (scene (pimpl w)); fields_in Hbuild;
      (destruct (headlight (pimpl w)); [|discriminate]);
      fields_in Hbuild; destruct (searchForCamera n); simplify_eq; reflexivity.
  - simplify_eq. by destruct (scene (pimpl w)) eqn:Hscene.
Qed.

(** C5: [setSceneGraph] with the node that is installed returns at the
    pointer comparison; so once [setSceneGraph n] went through, calling it
    again with [n] changes nothing: the composed root, the reference count
    of [n] and the scene and camera of both managers are those the first
    call left. *)
Theorem setSceneGraph_twice (node : option SoNode) (w : World) :
  (same_node node (scene (pimpl w)) = true -> setSceneGraph node w = Some w) ∧
  (∀ w1, setSceneGraph node w = Some w1 -> setSceneGraph node w1 = Some w1).
Proof.
  split.
  - intros Hsame. unfold setSceneGraph. by rewrite Hsame.
  - intros w1 H.
    assert (same_node node (scene (pimpl w1)) = true) as Hsame.
    { destruct (same_node node (scene (pimpl w))) eqn:Hdiff.
      - unfold setSceneGraph in H. rewrite Hdiff in H. by simplify_eq.
      - rewrite (setSceneGraph_scene node w w1 H Hdiff). apply same_node_refl. }
    unfold setSceneGraph. by rewrite Hsame.
Qed.

(** C4: installing a node [n] that is not the installed scene.  When the
    depth-first traversal of [n] meets no camera, a new perspective
    camera becomes the second child of the new root, right after the
    headlight and before [n]; the event manager and the render manager
    are given the camera and then the root, in four calls, and only
    after these [viewAll] runs, once: the calls that follow are one
    view-all command to every running state machine of the event
    manager's list, so each of them has processed one ViewAll event per
    entry in the list.  When the traversal meets a camera, the first one
    met is handed to both managers as it is, the root has only the
    headlight and [n] below it, the four calls are all the calls made and
    no state machine is disturbed. *)
Theorem setSceneGraph_camera (w : World) (n hl : SoNode) (pr pe : ptr)
    (rm : SoRenderManager) (em : SoEventManager) :
  same_node (Some n) (scene (pimpl w)) = false ->
  headlight (pimpl w) = Some hl ->
  sorendermanager (pimpl w) = Some pr ->
  rendermanagers w !! pr = Some rm ->
  soeventmanager (pimpl w) = Some pe ->
  eventmanagers w !! pe = Some em ->
  Forall (λ c, is_Some (statemachines w !! c)) (em_statemachines em) ->
  match List.find isCamera (traversal n) with
  | None =>
      let camera := Node (Pos.succ (next_node w)) SoPerspectiveCamera [] in
      let root := Node (next_node w) SoSeparator [hl; camera; n] in
      ∃ w', setSceneGraph (Some n) w = Some w' ∧
            scene (pimpl w') = Some n ∧
            rendermanagers w' !! pr =
              Some (rm_setSceneGraph (Some root) (rm_setCamera (Some camera) rm)) ∧
            eventmanagers w' !! pe =
              Some (em_setSceneGraph (Some root) (em_setCamera (Some camera) em)) ∧
            (∀ c, statemachines w' !! c =
                    (λ sm, if sm_active sm
                           then Nat.iter (count_occ Pos.eq_dec (em_statemachines em) c)
                                  (sm_queueEvent_processEventQueue
                                     "sim.coin3d.coin.navigation.ViewAll") sm
                           else sm) <$> statemachines w !! c) ∧
            trace w' = trace w ++ [Touch (next_node w)] ∧
            calls w' =
              calls w ++
              [OnEventManager pe (em_setCamera (Some camera));
               OnRenderManager pr (rm_setCamera (Some camera));
               OnEventManager pe (em_setSceneGraph (Some root));
               OnRenderManager pr (rm_setSceneGraph (Some root))] ++
              map view_all_call (active_machines w (em_statemachines em))
  | Some camera =>
      let root := Node (next_node w) SoSeparator [hl; n] in
      ∃ w', setSceneGraph (Some n) w = Some w' ∧
            camera ∈ traversal n ∧ isCamera camera = true ∧
            scene (pimpl w') = Some n ∧
            rendermanagers w' !! pr =
              Some (rm_setSceneGraph (Some root) (rm_setCamera (Some camera) rm)) ∧
            eventmanagers w' !! pe =
              Some (em_setSceneGraph (Some root) (em_setCamera (Some camera) em)) ∧
            statemachines w' = statemachines w ∧
            trace w' = trace w ++ [Touch (next_node w)] ∧
            calls w' =
              calls w ++
              [OnEventManager pe (em_setCamera (Some camera));
               OnRenderManager pr (rm_setCamera (Some camera));
               OnEventManager pe (em_setSceneGraph (Some root));
               OnRenderManager pr (rm_setSceneGraph (Some root))]
  end.
Proof.
  intros Hdiff Hhl Hpr Hrm Hpe Hem Hall.
  (* the world in which the new scene is referenced and the old one released *)
  set (w0 := match scene (pimpl w) with
             | Some s => assign (set_scene None) (unref s w)
             | None => w
             end).
  assert (pimpl w0 = set_scene None (pimpl w) ∧
          rendermanagers w0 = rendermanagers w ∧ eventmanagers w0 = eventmanagers w ∧
          statemachines w0 = statemachines w ∧ next_node w0 = next_node w ∧
          trace w0 = trace w ∧ calls w0 = calls w)
    as (Hp0 & Hr0 & He0 & Hs0 & Hn0 & Ht0 & Hc0).
  { subst w0. destruct (scene (pimpl w)) as [s|] eqn:Hscene; fields; [done|].
    split_and!; try done. destruct (pimpl w); cbn in *; by subst. }
  assert (sorendermanager (pimpl w0) = Some pr ∧ soeventmanager (pimpl w0) = Some pe ∧
          headlight (pimpl w0) = Some hl) as (Hpr0 & Hpe0 & Hhl0)
    by (by rewrite Hp0).
  unfold setSceneGraph. rewrite Hdiff. fold w0. clearbody w0.
  cbn [new_node]. fields. rewrite Hhl0. fields. rewrite Hn0.
  rewrite (searchForCamera_first n).
  destruct (List.find isCamera (traversal n)) as [camera|] eqn:Hfind.
  - destruct (find_camera n camera Hfind) as [Hin Hcam].
    fields. unfold addChild at 1 2. cbn [app].
    match goal with
    | |- context [on_eventmanager (em_setCamera _) ?w1'] =>
        assert (pimpl w1' = set_scene (Some n) (pimpl w0) ∧
                rendermanagers w1' = rendermanagers w0 ∧
                eventmanagers w1' = eventmanagers w0 ∧
                statemachines w1' = statemachines w0 ∧
                trace w1' = trace w0 ∧ calls w1' = calls w0)
          as (Hp1 & Hr1 & He1 & Hs1 & Ht1 & Hc1) by done;
        generalize dependent w1'; intros w1 Hp1 Hr1 He1 Hs1 Ht1 Hc1
    end.
    assert (sorendermanager (pimpl w1) = Some pr ∧ soeventmanager (pimpl w1) = Some pe)
      as [Hpr1 Hpe1] by (by rewrite Hp1).
    rewrite (on_eventmanager_eq _ _ pe em) by (by rewrite ?He1, ?He0). fields.
    rewrite (on_rendermanager_eq _ _ pr rm) by (fields; by rewrite ?Hr1, ?Hr0). fields.
    erewrite (on_eventmanager_eq _ _ pe)
      by (fields; first [exact Hpe1|apply lookup_insert_eq]).
    fields.
    erewrite (on_rendermanager_eq _ _ pr)
      by (fields; first [exact Hpr1|apply lookup_insert_eq]).
    fields.
    eexists. split; [reflexivity|]. fields.
    rewrite !insert_insert_eq, !lookup_insert_eq, Hp1, Hs1, Ht1, Hc1, Hs0, Ht0, Hc0,
      <- !app_assoc.
    by split_and!.
  - fields. unfold addChild at 1 2 3. cbn [app].
    match goal with
    | |- context [on_eventmanager (em_setCamera _) ?w1'] =>
        assert (pimpl w1' = set_scene (Some n) (pimpl w0) ∧
                rendermanagers w1' = rendermanagers w0 ∧
                eventmanagers w1' = eventmanagers w0 ∧
                statemachines w1' = statemachines w0 ∧
                trace w1' = trace w0 ∧ calls w1' = calls w0)
          as (Hp1 & Hr1 & He1 & Hs1 & Ht1 & Hc1) by done;
        generalize dependent w1'; intros w1 Hp1 Hr1 He1 Hs1 Ht1 Hc1
    end.
    assert (sorendermanager (pimpl w1) = Some pr ∧ soeventmanager (pimpl w1) = Some pe)
      as [Hpr1 Hpe1] by (by rewrite Hp1).
    rewrite (on_eventmanager_eq _ _ pe em) by (by rewrite ?He1, ?He0). fields.
    rewrite (on_rendermanager_eq _ _ pr rm) by (fields; by rewrite ?Hr1, ?Hr0). fields.
    erewrite (on_eventmanager_eq _ _ pe)
      by (fields; first [exact Hpe1|apply lookup_insert_eq]).
    fields.
    erewrite (on_rendermanager_eq _ _ pr)
      by (fields; first [exact Hpr1|apply lookup_insert_eq]).
    fields.
    unfold viewAll. cbv zeta. fields. rewrite Hpe1. fields.
    rewrite lookup_insert_eq. fields.
    cbn [em_statemachines em_setSceneGraph em_setCamera].
    set (body := sm_queueEvent_processEventQueue _).
    match goal with
    | |- context [for_active_statemachines body ?l ?w2'] =>
        assert (statemachines w2' = statemachines w ∧
                pimpl w2' = pimpl w1 ∧
                rendermanagers w2' =
                  <[pr := rm_setSceneGraph
                            (Some (Node (next_node w) SoSeparator
                                     [hl; Node (Pos.succ (next_node w))
                                            SoPerspectiveCamera []; n]))
                            (rm_setCamera
                               (Some (Node (Pos.succ (next_node w))
                                        SoPerspectiveCamera [])) rm)]>
                    (rendermanagers w) ∧
                eventmanagers w2' =
                  <[pe := em_setSceneGraph
                            (Some (Node (next_node w) SoSeparator
                                     [hl; Node (Pos.succ (next_node w))
                                            SoPerspectiveCamera []; n]))
                            (em_setCamera
                               (Some (Node (Pos.succ (next_node w))
                                        SoPerspectiveCamera [])) em)]>
                    (eventmanagers w) ∧
                trace w2' = trace w ∧
                calls w2' =
                  calls w ++
                  [OnEventManager pe
                     (em_setCamera
                        (Some (Node (Pos.succ (next_node w)) SoPerspectiveCamera [])));
                   OnRenderManager pr
                     (rm_setCamera
                        (Some (Node (Pos.succ (next_node w)) SoPerspectiveCamera [])));
                   OnEventManager pe
                     (em_setSceneGraph
                        (Some (Node (next_node w) SoSeparator
                                 [hl; Node (Pos.succ (next_node w))
                                        SoPerspectiveCamera []; n])));
                   OnRenderManager pr
                     (rm_setSceneGraph
                        (Some (Node (next_node w) SoSeparator
                                 [hl; Node (Pos.succ (next_node w))
                                        SoPerspectiveCamera []; n])))])
          as (Hs2 & Hp2 & Hr2 & He2 & Ht2 & Hc2)
          by (fields;
              rewrite !insert_insert_eq, Hs1, Hs0, Hr1, Hr0, He1, He0, Ht1, Ht0, Hc1, Hc0,
                <- !app_assoc; by split_and!);
        generalize dependent w2'; intros w2 Hs2 Hp2 Hr2 He2 Ht2 Hc2
    end.
    assert (Forall (λ c, is_Some (statemachines w2 !! c)) (em_statemachines em))
      as Hall2 by (by rewrite Hs2).
    destruct (for_active_statemachines_runs body _ w2 Hall2) as [w5 H5].
    rewrite H5. fields.
    pose proof (for_active_statemachines_frame _ _ _ _ H5)
      as (Hp5 & Hr5 & He5 & _ & _ & _ & Ht5).
    pose proof (λ c, for_active_statemachines_lookup body _ _ _ c (λ _, eq_refl) H5)
      as Hl5.
    pose proof (for_active_statemachines_calls body _ _ _ (λ _, eq_refl) H5) as Hc5.
    assert (active_machines w2 (em_statemachines em) =
            active_machines w (em_statemachines em)) as Hactive
      by (by unfold active_machines; rewrite Hs2).
    rewrite Hactive in Hc5.
    eexists. split; [reflexivity|]. fields.
    rewrite Hp5, Hr5, He5, Ht5, Hc5, Hp2, Hp1, Hr2, He2, Ht2, Hc2, !lookup_insert_eq.
    fields. rewrite <- !app_assoc.
    split_and!; try done. intros c. by rewrite Hl5, Hs2.
Qed.

(** *** Cursors *)








(** [removeStateMachine] on a machine that exists. *)
Lemma removeStateMachine_eq (w : World) (cur pe : ptr) (m : ScXMLStateMachine)
    (em : SoEventManager) :
  statemachines w !! cur = Some m ->
  soeventmanager (pimpl w) = Some pe ->
  eventmanagers w !! pe = Some em ->
  removeStateMachine cur w =
    Some (call_eventmanager pe (em_removeSoScXMLStateMachine cur) em
            (call_statemachine cur (sm_setActiveCamera None)
               (sm_setSceneGraphRoot None m)
               (call_statemachine cur (sm_setSceneGraphRoot None) m w))).
Proof.
  intros Hm Hpe Hem. unfold removeStateMachine.
  rewrite (on_statemachine_eq _ w cur m Hm). fields.
  rewrite (on_statemachine_eq _ _ cur _ (lookup_insert_eq _ _ _)). fields.
  by rewrite (on_eventmanager_eq _ _ pe em) by done.
Qed.

(** The machine the widget holds, if any, is detached and deleted: the
    first statement of the destructor, and of a successful load. *)
Lemma release_navigation (w : World) (pe : ptr) (em : SoEventManager) :
  soeventmanager (pimpl w) = Some pe ->
  eventmanagers w !! pe = Some em ->
  navigation_alive w ->
  ∃ w1,
    match currentStateMachine (pimpl w) with
    | Some cur => w0 ← removeStateMachine cur w; delete_statemachine (Some cur) w0
    | None => Some w
    end = Some w1 ∧
    pimpl w1 = pimpl w ∧
    rendermanagers w1 = rendermanagers w ∧
    eventmanagers w1 =
      <[pe := match currentStateMachine (pimpl w) with
              | Some cur => em_removeSoScXMLStateMachine cur em
              | None => em
              end]> (eventmanagers w) ∧
    statemachines w1 =
      match currentStateMachine (pimpl w) with
      | Some cur => delete cur (statemachines w)
      | None => statemachines w
      end ∧
    refcount w1 = refcount w ∧ next_node w1 = next_node w ∧
    statecursormap w1 = statecursormap w ∧ trace w1 = trace w ∧
    calls w1 =
      calls w ++
      match currentStateMachine (pimpl w) with
      | Some cur =>
          [OnStateMachine cur (sm_setSceneGraphRoot None);
           OnStateMachine cur (sm_setActiveCamera None);
           OnEventManager pe (em_removeSoScXMLStateMachine cur)]
      | None => []
      end.
Proof.
  intros Hpe Hem Halive.
  destruct (currentStateMachine (pimpl w)) as [cur|] eqn:Hcur.
  - destruct (Halive cur Hcur) as [m Hm].
    rewrite (removeStateMachine_eq w cur pe m em Hm Hpe Hem). fields.
    unfold delete_statemachine. fields. rewrite lookup_insert_eq. fields.
    eexists. split; [reflexivity|]. fields.
    by rewrite !delete_insert_eq, <- !app_assoc.
  - exists w. by rewrite insert_id, app_nil_r.
Qed.

(** The cursor bindings of the default navigation file, one after the
    other. *)
Lemma default_cursors_step (w : World) (m : gmap string QCursor) :
  statecursormap w = Some m ->
  (w ← setStateCursor "interact" ArrowCursor w;
   w ← setStateCursor "idle" OpenHandCursor w;
   w ← (if 0x040200 <=? QT_VERSION
        then setStateCursor "rotate" ClosedHandCursor w
        else Some w);
   w ← setStateCursor "pan" SizeAllCursor w;
   w ← setStateCursor "zoom" SizeVerCursor w;
   w ← setStateCursor "dolly" SizeVerCursor w;
   w ← setStateCursor "seek" CrossCursor w;
   setStateCursor "spin" OpenHandCursor w) =
    Some (with_statecursormap (Some (with_default_cursors m)) w).
Proof.
  intros Hm. unfold setStateCursor, with_default_cursors. rewrite Hm. fields.
  by destruct (0x040200 <=? QT_VERSION).
Qed.

(** What a load that succeeds does, step by step. *)
Lemma load_step (url : QUrl) (filename : string) (w : World)
    (sm0 : ScXMLStateMachine) (pr pe : ptr) (rm : SoRenderManager)
    (em : SoEventManager) (m : gmap string QCursor) :
  resolves url filename ->
  read_statemachine filename = Some sm0 ->
  sm_isSoScXML sm0 = true ->
  sorendermanager (pimpl w) = Some pr -> rendermanagers w !! pr = Some rm ->
  soeventmanager (pimpl w) = Some pe -> eventmanagers w !! pe = Some em ->
  navigation_alive w ->
  statecursormap w = Some m ->
  ∃ w' new m' em',
    setNavigationModeFile url w = Some w' ∧
    statemachines w !! new = None ∧
    currentStateMachine (pimpl w') = Some new ∧
    navigationModeFile (pimpl w') = url ∧
    statemachines w' !! new = Some m' ∧
    sm_active m' = true ∧
    sm_sceneroot m' = rm_scene rm ∧ sm_camera m' = rm_camera rm ∧
    sm_statechangecbs m' = S (sm_statechangecbs sm0) ∧
    sm_processed m' = sm_processed sm0 ∧
    (∀ cur, currentStateMachine (pimpl w) = Some cur ->
            statemachines w' !! cur = None) ∧
    (∀ c, c ≠ new -> currentStateMachine (pimpl w) ≠ Some c ->
          statemachines w' !! c = statemachines w !! c) ∧
    eventmanagers w' = <[pe := em']> (eventmanagers w) ∧
    em_statemachines em' =
      match currentStateMachine (pimpl w) with
      | Some cur => remove_first cur (em_statemachines em)
      | None => em_statemachines em
      end ++ [new] ∧
    em_scene em' = em_scene em ∧ em_camera em' = em_camera em ∧
    em_viewport em' = em_viewport em ∧
    rendermanagers w' = rendermanagers w ∧
    refcount w' = refcount w ∧
    trace w' = trace w ∧
    statecursormap w' =
      Some (if decide (DEFAULT_NAVIGATIONFILE = url)
            then with_default_cursors m else m) ∧
    new = fresh (dom (statemachines w)).
Proof.
  intros Hres Hread Htype Hpr Hrm Hpe Hem Halive Hcursors.
  set (new := fresh (dom (statemachines w))).
  assert (statemachines w !! new = None) as Hnew by apply fresh_statemachine.
  unfold setNavigationModeFile.
  rewrite (resolved_step url filename w Hres). fields. rewrite read_step, Hread.
  unfold new_statemachine. cbv beta iota zeta. fold new. fields.
  rewrite lookup_insert_eq. fields. rewrite Htype. fields.
  set (w0 := with_statemachines <[new := sm0]> w).
  destruct (release_navigation w0 pe em Hpe Hem)
    as (w1 & Hstage & Hp1 & Hr1 & He1 & Hs1 & Hrc1 & _ & Hc1 & Ht1 & _).
  { intros cur Hcur. destruct (Halive cur Hcur) as [mc Hmc]. exists mc.
    subst w0. fields. rewrite lookup_insert_ne; [done|]. intros ->.
    rewrite Hnew in Hmc. discriminate Hmc. }
  subst w0. fields_in Hstage. fields_in Hp1. fields_in Hr1. fields_in He1.
  fields_in Hs1. fields_in Hrc1. fields_in Hc1. fields_in Ht1.
  rewrite Hstage. fields.
  assert (statemachines w1 !! new = Some sm0) as Hnew1.
  { rewrite Hs1. destruct (currentStateMachine (pimpl w)) as [cur|] eqn:Hcur.
    - destruct (Halive cur Hcur) as [mc Hmc].
      rewrite lookup_delete_ne, lookup_insert_eq; [done|]. intros ->.
      rewrite Hnew in Hmc. discriminate Hmc.
    - apply lookup_insert_eq. }
  unfold addStateMachine, getSoRenderManager.
  erewrite (on_eventmanager_eq _ w1 pe)
    by first [by rewrite Hp1|rewrite He1; apply lookup_insert_eq].
  fields. rewrite Hp1, Hpr. fields. rewrite Hr1, Hrm. fields.
  rewrite (on_statemachine_eq _ _ new sm0) by done. fields.
  erewrite on_statemachine_eq by (fields; apply lookup_insert_eq). fields.
  erewrite on_statemachine_eq by (fields; apply lookup_insert_eq). fields.
  erewrite on_statemachine_eq by (fields; apply lookup_insert_eq). fields.
  assert (∀ cur, currentStateMachine (pimpl w) = Some cur ->
                 statemachines w1 !! cur = None) as Hgone.
  { intros cur Hcur. rewrite Hs1, Hcur. apply lookup_delete_eq. }
  assert (∀ c, c ≠ new -> currentStateMachine (pimpl w) ≠ Some c ->
               statemachines w1 !! c = statemachines w !! c) as Hkept.
  { intros c Hc Hcur. rewrite Hs1.
    destruct (currentStateMachine (pimpl w)) as [cur|].
    - rewrite lookup_delete_ne, lookup_insert_ne; [done..|]. by intros ->.
    - by rewrite lookup_insert_ne. }
  assert (∀ cur, currentStateMachine (pimpl w) = Some cur -> cur ≠ new) as Hold.
  { intros cur Hcur ->. destruct (Halive new Hcur) as [mc Hmc].
    rewrite Hnew in Hmc. discriminate Hmc. }
  case_decide.
  - erewrite default_cursors_step by (fields; by rewrite Hc1).
    eexists _, new, _, _. split; [reflexivity|]. fields.
    rewrite !lookup_insert_eq, He1, !insert_insert_eq, Hr1, Hrc1, Ht1.
    split_and!; try done.
    + intros cur Hcur. rewrite !lookup_insert_ne by (symmetry; by apply Hold).
      by apply Hgone.
    + intros c Hc Hcur. rewrite !lookup_insert_ne by done. by apply Hkept.
    + by destruct (currentStateMachine (pimpl w)).
    + by destruct (currentStateMachine (pimpl w)).
    + by destruct (currentStateMachine (pimpl w)).
    + by destruct (currentStateMachine (pimpl w)).
  - eexists _, new, _, _. split; [reflexivity|]. fields.
    rewrite !lookup_insert_eq, He1, !insert_insert_eq, Hr1, Hrc1, Ht1.
    split_and!; try done.
    + intros cur Hcur. rewrite !lookup_insert_ne by (symmetry; by apply Hold).
      by apply Hgone.
    + intros c Hc Hcur. rewrite !lookup_insert_ne by done. by apply Hkept.
    + by destruct (currentStateMachine (pimpl w)).
    + by destruct (currentStateMachine (pimpl w)).
    + by destruct (currentStateMachine (pimpl w)).
    + by destruct (currentStateMachine (pimpl w)).
    + by rewrite Hc1.
Qed.





(** ** Further properties *)

(** *** The cursor table *)

(** X1: the cursor table is a plain map: a cursor set for a state is the
    one read back, a second [setStateCursor] for the same state replaces
    the first, every other state reads as before, and a state that was
    never given a cursor reads as the arrow; nothing but the table
    changes. *)
Theorem stateCursor_after_setStateCursor (w : World) (m : gmap string QCursor)
    (state other : string) (first second : QCursor) :
  statecursormap w = Some m ->
  ∃ w1 w2,
    setStateCursor state first w = Some w1 ∧
    setStateCursor state second w1 = Some w2 ∧
    stateCursor state w1 = Some first ∧
    stateCursor state w2 = Some second ∧
    (other ≠ state -> stateCursor other w2 = stateCursor other w) ∧
    (m !! other = None -> stateCursor other w = Some ArrowCursor) ∧
    pimpl w2 = pimpl w ∧ trace w2 = trace w ∧
    rendermanagers w2 = rendermanagers w ∧ eventmanagers w2 = eventmanagers w ∧
    statemachines w2 = statemachines w.
Proof.
  intros Hm. unfold setStateCursor, stateCursor. rewrite Hm. fields.
  eexists _, _. split; [reflexivity|]. fields. split; [reflexivity|]. fields.
  rewrite !lookup_insert_eq. split; [done|]. split; [done|].
  split; [intros Hother; by rewrite !lookup_insert_ne|].
  split; [by intros ->|]. done.
Qed.

(** Without Quarter's table both calls fail their assertion. *)
Remark stateCursor_uninitialised (w : World) (state : string) (cursor : QCursor) :
  statecursormap w = None ->
  setStateCursor state cursor w = None ∧ stateCursor state w = None.
Proof. intros Hm. unfold setStateCursor, stateCursor. by rewrite Hm. Qed.

(** *** Render configuration, read back *)

(** X2: what the three mode setters store is what the matching getter
    returns, and setting one mode leaves the other two as they were. *)
Theorem render_modes_read_back (w : World) (p : ptr) (m : SoRenderManager)
    (type rmode smode : Z) :
  sorendermanager (pimpl w) = Some p ->
  rendermanagers w !! p = Some m ->
  ∃ w1 w2 w3,
    setTransparencyType type w = Some w1 ∧
    setRenderMode rmode w1 = Some w2 ∧
    setStereoMode smode w2 = Some w3 ∧
    transparencyType w1 = Some type ∧
    renderMode w1 = Some (rm_rendermode m) ∧
    stereoMode w1 = Some (rm_stereomode m) ∧
    transparencyType w2 = Some type ∧
    renderMode w2 = Some rmode ∧
    stereoMode w2 = Some (rm_stereomode m) ∧
    transparencyType w3 = Some type ∧
    renderMode w3 = Some rmode ∧
    stereoMode w3 = Some smode.
Proof.
  intros Hp Hm.
  unfold setTransparencyType, setRenderMode, setStereoMode, transparencyType,
    renderMode, stereoMode, on_rendermanager, scheduleRedraw.
  rewrite Hp. fields. rewrite Hm. fields. rewrite Hp. fields.
  rewrite lookup_insert_eq. fields.
  eexists _, _, _. split; [reflexivity|]. fields. rewrite Hp. fields.
  rewrite !lookup_insert_eq. fields. rewrite Hp. fields.
  rewrite !lookup_insert_eq. fields.
  split; [reflexivity|]. fields. rewrite Hp. fields.
  rewrite !lookup_insert_eq. fields. rewrite Hp. fields.
  rewrite !lookup_insert_eq. fields.
  split; [reflexivity|]. fields. rewrite Hp. fields.
  rewrite !lookup_insert_eq. by fields.
Qed.

(** *** Painting and the clear flags *)

(** A paint changes the two viewports, the stored pixel ratio, the two
    paint flags and the trace, and nothing else. *)
Lemma paintGL_keeps (host : Host) (w : World) :
  managed w ->
  host_isValid host = true ->
  ∃ w', paintGL host w = Some w' ∧
        clearwindow (pimpl w') = clearwindow (pimpl w) ∧
        clearzbuffer (pimpl w') = clearzbuffer (pimpl w) ∧
        scene (pimpl w') = scene (pimpl w) ∧
        headlight (pimpl w') = headlight (pimpl w) ∧
        sorendermanager (pimpl w') = sorendermanager (pimpl w) ∧
        soeventmanager (pimpl w') = soeventmanager (pimpl w) ∧
        currentStateMachine (pimpl w') = currentStateMachine (pimpl w) ∧
        navigationModeFile (pimpl w') = navigationModeFile (pimpl w) ∧
        autoredrawenabled (pimpl w') = true ∧
        statemachines w' = statemachines w ∧
        refcount w' = refcount w ∧
        statecursormap w' = statecursormap w.
Proof.
  intros [(pr & Hpr & mr & Hmr) (pe & Hpe & me & Hme)] Hvalid.
  unfold paintGL, updateDevicePixelRatio, on_rendermanager, on_eventmanager,
    actualRedraw.
  rewrite Hvalid.
  destruct (0x050600 <=? QT_VERSION); [case_decide|];
    destruct (processdelayqueue (pimpl w) && host_isDelaySensorPending host)
      eqn:Hflush.
  all: eexists; split;
    [fields; rewrite ?Hpr; fields; rewrite ?Hmr; fields; rewrite ?Hpe; fields;
     rewrite ?Hme; fields; rewrite ?Hflush; fields; rewrite ?Hpr; fields;
     rewrite ?lookup_insert_eq, ?Hmr; fields; reflexivity|].
  all: by fields.
Qed.

(** X3: the flags stored by [setClearWindow] and [setClearZBuffer] are the
    ones the next paint hands to the render manager; the paint draws once,
    as its last action, and leaves the flags as they were set. *)
Theorem clear_flags_reach_the_draw (host : Host) (w : World) (cw cz : bool) :
  managed w ->
  host_isValid host = true ->
  ∃ w' p events,
    paintGL host (setClearZBuffer cz (setClearWindow cw w)) = Some w' ∧
    sorendermanager (pimpl w) = Some p ∧
    trace w' = trace w ++ events ++ [Render p cw cz] ∧
    (∀ q a b, Render q a b ∉ events) ∧
    clearWindow w' = cw ∧ clearZBuffer w' = cz.
Proof.
  intros Hm Hvalid.
  destruct (paintGL_runs host (setClearZBuffer cz (setClearWindow cw w)))
    as (w' & p & pre & Hrun & Hp & Htrace & Hpre & _ & _); [done..|].
  destruct (paintGL_keeps host (setClearZBuffer cz (setClearWindow cw w)))
    as (w'' & Hrun' & Hcw & Hcz & _); [done..|].
  assert (w'' = w') as -> by (rewrite Hrun in Hrun'; by injection Hrun').
  exists w', p, (pre ++ flush_bracket
                      (processdelayqueue (pimpl w) && host_isDelaySensorPending host)).
  split; [done|]. split; [done|]. split; [by rewrite <- app_assoc|].
  split; [|done].
  intros q a b Hin. apply elem_of_app in Hin as [Hin|Hin].
  - destruct Hpre as [->| ->]; [by apply elem_of_nil in Hin|].
    apply elem_of_cons in Hin as [Hin|Hin]; [discriminate Hin|].
    by apply elem_of_nil in Hin.
  - destruct (processdelayqueue (pimpl w) && host_isDelaySensorPending host);
      cbn [flush_bracket] in Hin;
      rewrite ?elem_of_cons, ?elem_of_nil in Hin;
      repeat (destruct Hin as [Hin|Hin]; try discriminate Hin); done.
Qed.

(** *** Swapping the managers *)

Lemma ref_if_eventmanagers (n : option SoNode) (w : World) :
  eventmanagers (ref_if n w) = eventmanagers w.
Proof. by destruct n. Qed.

Lemma unref_if_eventmanagers (n : option SoNode) (w : World) :
  eventmanagers (unref_if n w) = eventmanagers w.
Proof. by destruct n. Qed.

(** Without a render manager nothing can be painted. *)
Lemma paintGL_without_rendermanager (host : Host) (w : World) :
  sorendermanager (pimpl w) = None -> paintGL host w = None.
Proof.
  intros Hnull.
  unfold paintGL, updateDevicePixelRatio, on_rendermanager, actualRedraw.
  destruct (0x050600 <=? QT_VERSION); [case_decide|]; fields;
    rewrite ?Hnull; fields; try done.
  all: destruct (host_isValid host); fields; [|done].
  all: destruct (processdelayqueue (pimpl w) && host_isDelaySensorPending host);
    fields; by rewrite Hnull.
Qed.

(** X4: handing the widget a null render manager deletes the manager it
    owns and leaves it with none: nothing is carried, nothing is created
    in its place, the flag is cleared and no reference count moves.  From
    then on the mode setters and getters fail their assertion and a paint
    runs into the null pointer. *)
Theorem setSoRenderManager_null (w : World) (old : ptr) (m_old : SoRenderManager) :
  sorendermanager (pimpl w) = Some old ->
  initialsorendermanager (pimpl w) = true ->
  rendermanagers w !! old = Some m_old ->
  ∃ w', setSoRenderManager None w = Some w' ∧
        sorendermanager (pimpl w') = None ∧
        initialsorendermanager (pimpl w') = false ∧
        rendermanagers w' = delete old (rendermanagers w) ∧
        refcount w' = refcount w ∧
        eventmanagers w' = eventmanagers w ∧
        (∀ host, paintGL host w' = None) ∧
        (∀ mode, setRenderMode mode w' = None) ∧
        (∀ mode, setStereoMode mode w' = None) ∧
        (∀ type, setTransparencyType type w' = None) ∧
        renderMode w' = None.
Proof.
  intros Hcur Hown Hold. unfold setSoRenderManager. rewrite Hcur. fields.
  rewrite Hown, Hcur. unfold delete_rendermanager. rewrite Hold. fields.
  eexists. split; [reflexivity|]. fields. do 5 (split; [reflexivity|]).
  split; [intros host; by apply paintGL_without_rendermanager|].
  by repeat split.
Qed.

(** X5: a render manager the widget does not own is never deleted by
    [setSoRenderManager], whatever it is replaced with: it is still there
    afterwards, with everything it held. *)
Theorem setSoRenderManager_keeps_foreign (w : World) (old : ptr)
    (m_old : SoRenderManager) (manager : option ptr) :
  sorendermanager (pimpl w) = Some old ->
  initialsorendermanager (pimpl w) = false ->
  rendermanagers w !! old = Some m_old ->
  (∀ new, manager = Some new -> is_Some (rendermanagers w !! new)) ->
  ∃ w', setSoRenderManager manager w = Some w' ∧
        sorendermanager (pimpl w') = manager ∧
        initialsorendermanager (pimpl w') = false ∧
        rendermanagers w' !! old = Some m_old.
Proof.
  intros Hcur Hown Hold Hlive. unfold setSoRenderManager. rewrite Hcur.
  destruct manager as [new|].
  - destruct (Hlive new eq_refl) as [m_new Hnew]. fields. rewrite Hold. fields.
    rewrite !ref_if_pimpl, Hown. unfold on_rendermanager. fields.
    rewrite !ref_if_rendermanagers, Hnew. fields.
    repeat (rewrite lookup_insert_eq; fields).
    eexists. split; [reflexivity|].
    rewrite !unref_if_pimpl, !unref_if_rendermanagers. fields.
    rewrite ?ref_if_pimpl, ?ref_if_rendermanagers.
    split; [done|]. split; [done|].
    destruct (decide (new = old)) as [->|Hne].
    + rewrite lookup_insert_eq. rewrite Hold in Hnew. injection Hnew as <-.
      by destruct m_old.
    + by rewrite !lookup_insert_ne.
  - fields. rewrite Hown. eexists. split; [reflexivity|]. by fields.
Qed.

(** X6: the event manager is swapped like the render manager: the new one
    gets the scene graph, the camera and the viewport of the outgoing one,
    the outgoing one is deleted when the widget owns it, and the flag is
    cleared.  The state machines registered with the outgoing manager are
    not handed over: the new manager keeps the list it came with. *)
Theorem setSoEventManager_carries (w : World) (old new : ptr)
    (m_old m_new : SoEventManager) :
  soeventmanager (pimpl w) = Some old ->
  initialsoeventmanager (pimpl w) = true ->
  eventmanagers w !! old = Some m_old ->
  eventmanagers w !! new = Some m_new ->
  new ≠ old ->
  ∃ w' m', setSoEventManager (Some new) w = Some w' ∧
           soeventmanager (pimpl w') = Some new ∧
           initialsoeventmanager (pimpl w') = false ∧
           eventmanagers w' !! old = None ∧
           eventmanagers w' !! new = Some m' ∧
           em_scene m' = em_scene m_old ∧
           em_camera m' = em_camera m_old ∧
           em_viewport m' = em_viewport m_old ∧
           em_statemachines m' = em_statemachines m_new ∧
           statemachines w' = statemachines w ∧
           (∀ a, refcount_of w' a = refcount_of w a).
Proof.
  intros Hcur Hown Hold Hnew Hne.
  unfold setSoEventManager. rewrite Hcur. fields. rewrite Hold. fields.
  rewrite !ref_if_pimpl, Hown, Hcur. unfold delete_eventmanager, on_eventmanager.
  rewrite !ref_if_eventmanagers, Hold. fields.
  rewrite lookup_delete_ne, !ref_if_eventmanagers, Hnew by done. fields.
  repeat (rewrite lookup_insert_eq; fields).
  eexists _, (em_setViewportRegion (em_viewport m_old)
                (em_setCamera (em_camera m_old)
                   (em_setSceneGraph (em_scene m_old) m_new))).
  split; [reflexivity|].
  rewrite !unref_if_pimpl, !unref_if_eventmanagers. fields.
  split; [done|]. split; [done|].
  split; [by rewrite !lookup_insert_ne, lookup_delete_eq|].
  split; [by rewrite lookup_insert_eq|].
  do 4 (split; [reflexivity|]).
  split; [by destruct (em_scene m_old), (em_camera m_old)|].
  intros a. apply ref_unref_balanced. reflexivity.
Qed.

(** *** Scenes and the references on them *)

Lemma on_eventmanager_inv f (w w' : World) :
  on_eventmanager f w = Some w' ->
  ∃ p m, soeventmanager (pimpl w) = Some p ∧ eventmanagers w !! p = Some m ∧
         w' = call_eventmanager p f m w.
Proof.
  unfold on_eventmanager. intros H.
  apply bind_Some in H as (p & Hp & H). apply bind_Some in H as (m & Hm & H).
  exists p, m. by simplify_eq.
Qed.

Lemma on_rendermanager_inv f (w w' : World) :
  on_rendermanager f w = Some w' ->
  ∃ p m, sorendermanager (pimpl w) = Some p ∧ rendermanagers w !! p = Some m ∧
         w' = call_rendermanager p f m w.
Proof.
  unfold on_rendermanager. intros H.
  apply bind_Some in H as (p & Hp & H). apply bind_Some in H as (m & Hm & H).
  exists p, m. by simplify_eq.
Qed.

(** What [setSceneGraph] has done when it returns from its long path: the
    world [w0] left by the release of the old scene and the composition of
    the new root, then the four manager calls, [viewAll] if asked for, and
    the touch. *)
Lemma setSceneGraph_inv (node : option SoNode) (w w' : World) :
  same_node node (scene (pimpl w)) = false ->
  setSceneGraph node w = Some w' ->
  ∃ camera superscene pr rm pe em w0,
    sorendermanager (pimpl w) = Some pr ∧ rendermanagers w !! pr = Some rm ∧
    soeventmanager (pimpl w) = Some pe ∧ eventmanagers w !! pe = Some em ∧
    pimpl w0 = set_scene node (pimpl w) ∧
    refcount w0 = refcount (ref_if node (unref_if (scene (pimpl w)) w)) ∧
    (node = None -> camera = None ∧ superscene = None ∧ next_node w0 = next_node w) ∧
    pimpl w' = pimpl w0 ∧
    refcount w' = refcount w0 ∧
    statecursormap w' = statecursormap w ∧
    next_node w' = next_node w0 ∧
    rendermanagers w' =
      <[pr := rm_setSceneGraph superscene (rm_setCamera camera rm)]> (rendermanagers w) ∧
    eventmanagers w' =
      <[pe := em_setSceneGraph superscene (em_setCamera camera em)]> (eventmanagers w) ∧
    (node = None -> statemachines w' = statemachines w ∧ trace w' = trace w).
Proof.
  intros Hdiff H. unfold setSceneGraph in H. rewrite Hdiff in H.
  apply bind_Some in H as ([[[camera superscene] viewall] w0] & Hbuild & H).
  apply bind_Some in H as (w1 & H1 & H). apply bind_Some in H as (w2 & H2 & H).
  apply bind_Some in H as (w3 & H3 & H). apply bind_Some in H as (w4 & H4 & H).
  apply bind_Some in H as (w5 & H5 & H).
  assert (pimpl w0 = set_scene node (pimpl w) ∧
          refcount w0 = refcount (ref_if node (unref_if (scene (pimpl w)) w)) ∧
          rendermanagers w0 = rendermanagers w ∧
          eventmanagers w0 = eventmanagers w ∧
          statemachines w0 = statemachines w ∧
          statecursormap w0 = statecursormap w ∧
          trace w0 = trace w ∧
          (node = None -> camera = None ∧ superscene = None ∧ viewall = false ∧
                          next_node w0 = next_node w))
    as (Hp0 & Hrc0 & Hr0 & He0 & Hs0 & Hc0 & Ht0 & Hnull).
  { clear -Hbuild. destruct node as [n|].
    - cbn [new_node] in Hbuild. fields_in Hbuild.
      destruct (scene (pimpl w)) as [s|] eqn:Hscene; fields_in Hbuild;
        (destruct (headlight (pimpl w)); [|discriminate]);
        fields_in Hbuild; destruct (searchForCamera n); simplify_eq; fields;
        repeat split; try done; by destruct (pimpl w).
    - simplify_eq. destruct (scene (pimpl w)) as [s|] eqn:Hscene; fields;
        repeat split; try done; destruct (pimpl w); cbn in *; by subst. }
  apply on_eventmanager_inv in H1 as (pe & em & Hpe & Hem & ->).
  apply on_rendermanager_inv in H2 as (pr & rm & Hpr & Hrm & ->).
  apply on_eventmanager_inv in H3 as (pe' & em' & Hpe' & Hem' & ->).
  apply on_rendermanager_inv in H4 as (pr' & rm' & Hpr' & Hrm' & ->).
  fields_in Hpr. fields_in Hrm. fields_in Hpe'. fields_in Hem'.
  fields_in Hpr'. fields_in Hrm'.
  rewrite Hpe in Hpe'. injection Hpe' as <-.
  rewrite Hpr in Hpr'. injection Hpr' as <-.
  rewrite lookup_insert_eq in Hem'. injection Hem' as <-.
  rewrite lookup_insert_eq in Hrm'. injection Hrm' as <-.
  rewrite Hp0 in Hpe, Hpr. rewrite Hr0 in Hrm. rewrite He0 in Hem.
  assert (pimpl w5 = pimpl w0 ∧ refcount w5 = refcount w0 ∧
          statecursormap w5 = statecursormap w0 ∧ next_node w5 = next_node w0 ∧
          rendermanagers w5 =
            <[pr := rm_setSceneGraph superscene (rm_setCamera camera rm)]>
              (rendermanagers w) ∧
          eventmanagers w5 =
            <[pe := em_setSceneGraph superscene (em_setCamera camera em)]>
              (eventmanagers w) ∧
          (viewall = false -> statemachines w5 = statemachines w0 ∧ trace w5 = trace w0))
    as (Hp5 & Hrc5 & Hc5 & Hn5 & Hr5 & He5 & Hquiet).
  { destruct viewall.
    - apply viewAll_frame in H5 as (-> & -> & -> & -> & -> & -> & _). fields.
      by rewrite !insert_insert_eq, Hr0, He0.
    - injection H5 as <-. fields. by rewrite !insert_insert_eq, Hr0, He0. }
  exists camera, superscene, pr, rm, pe, em, w0.
  injection H as <-.
  assert (node = None -> superscene = None ∧ statemachines w5 = statemachines w ∧
                         trace w5 = trace w) as Hnone.
  { intros Hnode. destruct (Hnull Hnode) as (_ & Hroot & Hva & _).
    destruct (Hquiet Hva) as [-> ->]. by rewrite Hs0, Ht0. }
  destruct superscene as [root|]; fields;
    rewrite ?Hp5, ?Hrc5, ?Hc5, ?Hn5, ?Hr5, ?He5, ?Hc0; split_and!; try done.
  - intros Hnode. by destruct (Hnull Hnode) as (? & ? & _ & ?).
  - intros Hnode. by destruct (Hnone Hnode) as (? & _).
  - intros Hnode. by destruct (Hnull Hnode) as (? & ? & _ & ?).
  - intros Hnode. by destruct (Hnone Hnode) as (_ & ? & ?).
Qed.

Lemma refcount_of_ref_if (n : option SoNode) (w : World) (a : ptr) :
  refcount_of (ref_if n w) a = refcount_of w a + held n a.
Proof.
  destruct n as [x|]; cbn [ref_if held]; [|lia].
  rewrite refcount_of_ref. case_decide; lia.
Qed.

Lemma refcount_of_unref_if (n : option SoNode) (w : World) (a : ptr) :
  refcount_of (unref_if n w) a = refcount_of w a - held n a.
Proof.
  destruct n as [x|]; cbn [unref_if held]; [|lia].
  rewrite refcount_of_unref. case_decide; lia.
Qed.

Lemma same_node_held (n s : option SoNode) (a : ptr) :
  same_node n s = true -> held n a = held s a.
Proof.
  destruct n as [x|], s as [y|]; cbn; try done.
  intros H. apply bool_decide_eq_true in H. by rewrite H.
Qed.

(** X7: [setSceneGraph(NULL)] on a widget with a scene gives the scene's
    reference back, clears the widget's scene pointer and hands a null
    camera and a null scene graph to both managers; no root is composed,
    no state machine is asked to view all and nothing is touched. *)
Theorem setSceneGraph_null (w : World) (s : SoNode) :
  scene (pimpl w) = Some s ->
  managed w ->
  ∃ w' pr rm pe em,
    setSceneGraph None w = Some w' ∧
    getSceneGraph w' = None ∧
    sorendermanager (pimpl w') = Some pr ∧ rendermanagers w !! pr = Some rm ∧
    rendermanagers w' !! pr = Some (rm_setSceneGraph None (rm_setCamera None rm)) ∧
    soeventmanager (pimpl w') = Some pe ∧ eventmanagers w !! pe = Some em ∧
    eventmanagers w' !! pe = Some (em_setSceneGraph None (em_setCamera None em)) ∧
    (∀ a, refcount_of w' a = refcount_of w a - held (Some s) a) ∧
    statemachines w' = statemachines w ∧
    next_node w' = next_node w ∧
    trace w' = trace w.
Proof.
  intros Hscene [(pr & Hpr & rm & Hrm) (pe & Hpe & em & Hem)].
  assert (∃ w', setSceneGraph None w = Some w') as [w' Hrun].
  { unfold setSceneGraph, on_eventmanager, on_rendermanager. rewrite Hscene.
    fields. rewrite Hpe. fields. rewrite Hem. fields. rewrite Hpr. fields.
    rewrite Hrm. fields. rewrite Hpe. fields. rewrite lookup_insert_eq. fields.
    rewrite Hpr. fields. rewrite lookup_insert_eq. fields. by eexists. }
  destruct (setSceneGraph_inv None w w') as
    (camera & superscene & pr' & rm' & pe' & em' & w0 & Hpr' & Hrm' & Hpe' & Hem'
     & Hp0 & Hrc0 & Hnull & Hp & Hrc & _ & Hn & Hr & He & Hquiet);
    [by rewrite Hscene|done|].
  destruct (Hnull eq_refl) as (-> & -> & Hn0). destruct (Hquiet eq_refl) as [Hs Ht].
  simplify_eq.
  exists w', pr, rm, pe, em. unfold getSceneGraph.
  rewrite Hp, Hp0, Hr, He, !lookup_insert_eq. fields.
  split_and!; try done; [|congruence].
  intros a.
  rewrite (refcount_of_frame (ref_if None (unref_if (scene (pimpl w)) w)) w' a)
    by congruence.
  rewrite Hscene. apply (refcount_of_unref_if (Some s)).
Qed.

(** X8: the widget keeps one reference on the node it has installed and
    none on the one it gave up: whatever [setSceneGraph] is called with,
    [getSceneGraph] afterwards answers that very pointer (the node handed
    in, not the root composed above it), the new scene's count went up by
    one and the old scene's count down by one, and the headlight is the
    one it was.  So a widget that holds exactly a reference on its
    headlight and one on its scene still does after the call. *)
Theorem setSceneGraph_references (node : option SoNode) (w w' : World) :
  setSceneGraph node w = Some w' ->
  same_node node (getSceneGraph w') = true ∧
  headlight (pimpl w') = headlight (pimpl w) ∧
  (∀ a, refcount_of w' a =
          refcount_of w a + held (scene (pimpl w')) a - held (scene (pimpl w)) a) ∧
  (holds_its_nodes w -> holds_its_nodes w').
Proof.
  intros Hrun.
  assert (same_node node (getSceneGraph w') = true ∧
          headlight (pimpl w') = headlight (pimpl w) ∧
          ∀ a, refcount_of w' a =
                 refcount_of w a + held (scene (pimpl w')) a - held (scene (pimpl w)) a)
    as (Hget & Hhl & Hcount).
  { destruct (same_node node (scene (pimpl w))) eqn:Hdiff.
    - unfold setSceneGraph in Hrun. rewrite Hdiff in Hrun. injection Hrun as <-.
      split_and!; [done..|]. intros a. lia.
    - destruct (setSceneGraph_inv node w w' Hdiff Hrun) as
        (camera & superscene & pr & rm & pe & em & w0 & _ & _ & _ & _
         & Hp0 & Hrc0 & _ & Hp & Hrc & _).
      unfold getSceneGraph. rewrite Hp, Hp0. fields.
      split_and!; [apply same_node_refl|done|].
      intros a.
      rewrite (refcount_of_frame (ref_if node (unref_if (scene (pimpl w)) w)) w' a)
        by congruence.
      rewrite refcount_of_ref_if, refcount_of_unref_if. lia. }
  split_and!; [done..|].
  intros Hheld a. rewrite Hcount, (Hheld a), Hhl. lia.
Qed.

(** X9: after a [setSceneGraph] that changed the scene, the render manager
    and the event manager hold the same root and the same camera, whatever
    they held before; and if their viewport regions agreed before the call,
    they still agree. *)
Theorem setSceneGraph_same_view (node : option SoNode) (w w' : World) :
  same_node node (scene (pimpl w)) = false ->
  setSceneGraph node w = Some w' ->
  same_view w' ∧ (same_viewport w -> same_viewport w').
Proof.
  intros Hdiff Hrun.
  destruct (setSceneGraph_inv node w w' Hdiff Hrun) as
    (camera & superscene & pr & rm & pe & em & w0 & Hpr & Hrm & Hpe & Hem
     & Hp0 & _ & _ & Hp & _ & _ & _ & Hr & He & _).
  assert (sorendermanager (pimpl w') = Some pr ∧ soeventmanager (pimpl w') = Some pe)
    as [Hpr' Hpe'] by (by rewrite Hp, Hp0).
  split.
  - exists pr, (rm_setSceneGraph superscene (rm_setCamera camera rm)),
      pe, (em_setSceneGraph superscene (em_setCamera camera em)).
    rewrite Hr, He, !lookup_insert_eq. by split_and!.
  - intros (pr0 & rm0 & pe0 & em0 & Hpr0 & Hrm0 & Hpe0 & Hem0 & Hvp).
    simplify_eq.
    exists pr, (rm_setSceneGraph superscene (rm_setCamera camera rm)),
      pe, (em_setSceneGraph superscene (em_setCamera camera em)).
    rewrite Hr, He, !lookup_insert_eq. by split_and!.
Qed.

(** *** Viewports *)

(** The viewport part of [resizeGL] and [paintGL]: the same region goes to
    the render manager and then to the event manager. *)
Lemma viewport_to_both (vp : SbViewportRegion) (w : World) (pr pe : ptr)
    (rm : SoRenderManager) (em : SoEventManager) :
  sorendermanager (pimpl w) = Some pr -> rendermanagers w !! pr = Some rm ->
  soeventmanager (pimpl w) = Some pe -> eventmanagers w !! pe = Some em ->
  (w1 ← on_rendermanager (rm_setViewportRegion vp) w;
   on_eventmanager (em_setViewportRegion vp) w1) =
    Some (call_eventmanager pe (em_setViewportRegion vp) em
            (call_rendermanager pr (rm_setViewportRegion vp) rm w)).
Proof.
  intros Hpr Hrm Hpe Hem. rewrite (on_rendermanager_eq _ w pr rm Hpr Hrm).
  cbn [mbind option_bind]. by apply on_eventmanager_eq.
Qed.

Lemma actualRedraw_inv (w w' : World) :
  actualRedraw w = Some w' ->
  ∃ p, w' = emit (Render p (clearwindow (pimpl w)) (clearzbuffer (pimpl w))) w.
Proof.
  unfold actualRedraw. intros H.
  apply bind_Some in H as (p & _ & H). apply bind_Some in H as (m & _ & H).
  exists p. by simplify_eq.
Qed.

(** X10: [resizeGL] gives the render manager and the event manager the
    same viewport region, and a paint that finds a new pixel ratio does the
    same, so the two managers never come to disagree on the viewport
    through resizing or painting; managers that agreed on the scene and the
    camera before either call still do. *)
Theorem viewports_stay_together (host : Host) (width height : Z) (w : World) :
  managed w ->
  host_isValid host = true ->
  (∃ w', resizeGL host width height w = Some w' ∧
         same_viewport w' ∧ (same_view w -> same_view w')) ∧
  (∃ w', paintGL host w = Some w' ∧
         (same_viewport w -> same_viewport w') ∧ (same_view w -> same_view w')).
Proof.
  intros [(pr & Hpr & rm & Hrm) (pe & Hpe & em & Hem)] Hvalid.
  assert (∀ vp (w0 : World),
            pimpl w0 = set_device_pixel_ratio (device_pixel_ratio (pimpl w0)) (pimpl w) ->
            rendermanagers w0 = rendermanagers w -> eventmanagers w0 = eventmanagers w ->
            ∃ w1, (w1 ← on_rendermanager (rm_setViewportRegion vp) w0;
                   on_eventmanager (em_setViewportRegion vp) w1) = Some w1 ∧
                  sorendermanager (pimpl w1) = Some pr ∧
                  soeventmanager (pimpl w1) = Some pe ∧
                  rendermanagers w1 !! pr = Some (rm_setViewportRegion vp rm) ∧
                  eventmanagers w1 !! pe = Some (em_setViewportRegion vp em) ∧
                  pimpl w1 = pimpl w0 ∧ trace w1 = trace w0) as Hboth.
  { intros vp w0 Hp0 Hr0 He0. eexists. split.
    - apply (viewport_to_both vp w0 pr pe rm em);
        [by rewrite Hp0|by rewrite Hr0|by rewrite Hp0|by rewrite He0].
    - fields. rewrite Hp0, !lookup_insert_eq. by fields. }
  assert (∀ w1 vp,
            sorendermanager (pimpl w1) = Some pr -> soeventmanager (pimpl w1) = Some pe ->
            rendermanagers w1 !! pr = Some (rm_setViewportRegion vp rm) ->
            eventmanagers w1 !! pe = Some (em_setViewportRegion vp em) ->
            same_viewport w1 ∧ (same_view w -> same_view w1)) as Hsync.
  { intros w1 vp Hpr1 Hpe1 Hrm1 Hem1. split.
    - by exists pr, (rm_setViewportRegion vp rm), pe, (em_setViewportRegion vp em).
    - intros (pr0 & rm0 & pe0 & em0 & ? & ? & ? & ? & Hscene & Hcamera).
      simplify_eq.
      by exists pr, (rm_setViewportRegion vp rm), pe, (em_setViewportRegion vp em). }
  split.
  - unfold resizeGL, updateDevicePixelRatio.
    destruct (0x050600 <=? QT_VERSION); [case_decide|].
    all: match goal with
         | |- context [on_rendermanager (rm_setViewportRegion ?vp) ?w0] =>
             destruct (Hboth vp w0) as (w1 & Hrun & Hpr1 & Hpe1 & Hrm1 & Hem1 & _);
             [first [reflexivity|by destruct (pimpl w)]|done|done|]
         end.
    all: exists w1; split; [exact Hrun|by eapply Hsync].
  - destruct (paintGL_runs host w) as (w' & p & pre & Hrun & _);
      [by split; eauto|done|].
    exists w'. split; [done|].
    revert Hrun. unfold paintGL, updateDevicePixelRatio.
    rewrite Hvalid.
    destruct (0x050600 <=? QT_VERSION); [case_decide|].
    + match goal with
      | |- context [on_rendermanager (rm_setViewportRegion ?vp) ?w0] =>
          destruct (Hboth vp w0) as (w1 & -> & Hpr1 & Hpe1 & Hrm1 & Hem1 & Hp1 & _);
          [first [reflexivity|by destruct (pimpl w)]|done|done|]
      end.
      destruct (Hsync w1 _ Hpr1 Hpe1 Hrm1 Hem1) as [Hvp Hview].
      fields. intros Hrun.
      apply bind_Some in Hrun as (w2 & Hdraw & Hrun).
      apply actualRedraw_inv in Hdraw as (p1 & ->). injection Hrun as <-.
      split.
      * intros _. destruct Hvp as (a & b & c & d & ? & ? & ? & ? & ?).
        exists a, b, c, d.
        by destruct (processdelayqueue (pimpl w1) && host_isDelaySensorPending host).
      * intros Hv. destruct (Hview Hv) as (a & b & c & d & ? & ? & ? & ? & ? & ?).
        exists a, b, c, d.
        by destruct (processdelayqueue (pimpl w1) && host_isDelaySensorPending host).
    + fields. intros Hrun.
      apply bind_Some in Hrun as (w2 & Hdraw & Hrun).
      apply actualRedraw_inv in Hdraw as (p1 & ->). injection Hrun as <-.
      split.
      * intros (a & b & c & d & ? & ? & ? & ? & ?). exists a, b, c, d.
        by destruct (processdelayqueue (pimpl w) && host_isDelaySensorPending host).
      * intros (a & b & c & d & ? & ? & ? & ? & ? & ?). exists a, b, c, d.
        by destruct (processdelayqueue (pimpl w) && host_isDelaySensorPending host).
    + fields. intros Hrun.
      apply bind_Some in Hrun as (w2 & Hdraw & Hrun).
      apply actualRedraw_inv in Hdraw as (p1 & ->). injection Hrun as <-.
      split.
      * intros (a & b & c & d & ? & ? & ? & ? & ?). exists a, b, c, d.
        by destruct (processdelayqueue (pimpl w) && host_isDelaySensorPending host).
      * intros (a & b & c & d & ? & ? & ? & ? & ? & ?). exists a, b, c, d.
        by destruct (processdelayqueue (pimpl w) && host_isDelaySensorPending host).
Qed.

(** *** View commands and state machines *)

Lemma queue_keeps_active (name : string) (m : ScXMLStateMachine) :
  sm_active (sm_queueEvent_processEventQueue name m) = sm_active m.
Proof. reflexivity. Qed.

(** What the loop of [viewAll] and [seek] does to the state machines. *)
Lemma for_active_statemachines_delivers (name : string) (l : list ptr) (w : World) :
  Forall (λ c, is_Some (statemachines w !! c)) l ->
  ∃ w', for_active_statemachines (sm_queueEvent_processEventQueue name) l w = Some w' ∧
        pimpl w' = pimpl w ∧ rendermanagers w' = rendermanagers w ∧
        eventmanagers w' = eventmanagers w ∧ refcount w' = refcount w ∧
        trace w' = trace w ∧
        (∀ c sm, statemachines w !! c = Some sm -> sm_active sm = false ->
                 statemachines w' !! c = Some sm) ∧
        (∀ c sm, statemachines w !! c = Some sm -> c ∉ l ->
                 statemachines w' !! c = Some sm) ∧
        (∀ c sm, statemachines w !! c = Some sm -> sm_active sm = true ->
                 count_occ Pos.eq_dec l c = 1%nat ->
                 statemachines w' !! c = Some (sm_queueEvent_processEventQueue name sm)).
Proof.
  intros Hall.
  destruct (for_active_statemachines_runs (sm_queueEvent_processEventQueue name) l w Hall)
    as [w' Hrun].
  destruct (for_active_statemachines_frame _ _ _ _ Hrun)
    as (Hp & Hr & He & Hrc & _ & _ & Ht).
  pose proof (λ c, for_active_statemachines_lookup _ _ _ _ c
                     (queue_keeps_active name) Hrun) as Hlook.
  exists w'. split_and!; try done.
  - intros c sm Hsm Hoff. by rewrite Hlook, Hsm; cbn; rewrite Hoff.
  - intros c sm Hsm Hout. rewrite Hlook, Hsm. cbn.
    assert (count_occ Pos.eq_dec l c = O) as ->.
    { apply count_occ_not_In. by rewrite <- list_elem_of_In. }
    by destruct (sm_active sm).
  - intros c sm Hsm Hon Hone. by rewrite Hlook, Hsm; cbn; rewrite Hon, Hone.
Qed.

(** X11: [seek] and [viewAll] hand their named event to the state machines
    of the event manager and to nothing else: a machine that is active and
    registered once has processed exactly one more event, [Seek] or
    [ViewAll]; a machine that is not active, or not registered with the
    event manager, is left as it was; the managers, the reference counts
    and the trace do not change. *)
Theorem seek_and_viewAll_deliver (w : World) (pe : ptr) (em : SoEventManager) :
  soeventmanager (pimpl w) = Some pe ->
  eventmanagers w !! pe = Some em ->
  Forall (λ c, is_Some (statemachines w !! c)) (em_statemachines em) ->
  ∀ command name,
    (command = seek ∧ name = "sim.coin3d.coin.navigation.Seek") ∨
    (command = viewAll ∧ name = "sim.coin3d.coin.navigation.ViewAll") ->
    ∃ w', command w = Some w' ∧
          pimpl w' = pimpl w ∧ rendermanagers w' = rendermanagers w ∧
          eventmanagers w' = eventmanagers w ∧ refcount w' = refcount w ∧
          trace w' = trace w ∧
          (∀ c sm, statemachines w !! c = Some sm -> sm_active sm = false ->
                   statemachines w' !! c = Some sm) ∧
          (∀ c sm, statemachines w !! c = Some sm -> c ∉ em_statemachines em ->
                   statemachines w' !! c = Some sm) ∧
          (∀ c sm, statemachines w !! c = Some sm -> sm_active sm = true ->
                   count_occ Pos.eq_dec (em_statemachines em) c = 1%nat ->
                   statemachines w' !! c =
                     Some (sm_queueEvent_processEventQueue name sm)).
Proof.
  intros Hpe Hem Hall command name [[-> ->]|[-> ->]].
  - unfold seek. cbv zeta. rewrite Hpe. fields. rewrite Hem. fields.
    by apply for_active_statemachines_delivers.
  - unfold viewAll. cbv zeta. rewrite Hpe. fields. rewrite Hem. fields.
    by apply for_active_statemachines_delivers.
Qed.

Lemma remove_first_app_new (sm : ptr) (l : list ptr) :
  sm ∉ l -> remove_first sm (l ++ [sm]) = l.
Proof.
  induction l as [|x l IH]; intros Hout; cbn.
  - by rewrite decide_True.
  - apply not_elem_of_cons in Hout as [Hne Hout].
    rewrite decide_False by done. by rewrite IH.
Qed.

(** X12: [addStateMachine] registers the machine with the event manager
    and binds it to the scene graph and the camera of the render manager;
    [removeStateMachine] takes both bindings away again, so a removed
    machine holds neither scene nor camera, and takes it off the event
    manager's list, which for a machine that was not registered before is
    then the list it was.  The state-change callback registered by
    [addStateMachine] stays registered. *)
Theorem removeStateMachine_after_add (w : World) (sm pr pe : ptr)
    (m : ScXMLStateMachine) (rm : SoRenderManager) (em : SoEventManager) :
  sorendermanager (pimpl w) = Some pr -> rendermanagers w !! pr = Some rm ->
  soeventmanager (pimpl w) = Some pe -> eventmanagers w !! pe = Some em ->
  statemachines w !! sm = Some m ->
  sm ∉ em_statemachines em ->
  ∃ w1 w2 m1 m2 em1,
    addStateMachine sm w = Some w1 ∧
    statemachines w1 !! sm = Some m1 ∧
    sm_sceneroot m1 = rm_scene rm ∧ sm_camera m1 = rm_camera rm ∧
    sm_statechangecbs m1 = S (sm_statechangecbs m) ∧
    eventmanagers w1 !! pe = Some em1 ∧
    em_statemachines em1 = em_statemachines em ++ [sm] ∧
    removeStateMachine sm w1 = Some w2 ∧
    statemachines w2 !! sm = Some m2 ∧
    sm_sceneroot m2 = None ∧ sm_camera m2 = None ∧
    sm_statechangecbs m2 = S (sm_statechangecbs m) ∧
    sm_processed m2 = sm_processed m ∧ sm_active m2 = sm_active m ∧
    eventmanagers w2 !! pe = Some em ∧
    (∀ c, c ≠ sm -> statemachines w2 !! c = statemachines w !! c) ∧
    pimpl w2 = pimpl w ∧ rendermanagers w2 = rendermanagers w ∧ trace w2 = trace w.
Proof.
  intros Hpr Hrm Hpe Hem Hm Hnew.
  eassert (addStateMachine sm w = Some _) as Hadd.
  { unfold addStateMachine, getSoRenderManager.
    rewrite (on_eventmanager_eq _ w pe em Hpe Hem). fields. rewrite Hpr. fields.
    rewrite Hrm. fields.
    rewrite (on_statemachine_eq _ _ sm m) by done. fields.
    rewrite (on_statemachine_eq _ _ sm _ (lookup_insert_eq _ _ _)). fields.
    rewrite (on_statemachine_eq _ _ sm _ (lookup_insert_eq _ _ _)). fields.
    reflexivity. }
  match type of Hadd with
  | _ = Some ?w1 => eassert (removeStateMachine sm w1 = Some _) as Hremove
  end.
  { unfold removeStateMachine.
    erewrite on_statemachine_eq by (fields; apply lookup_insert_eq). fields.
    erewrite on_statemachine_eq by (fields; apply lookup_insert_eq). fields.
    erewrite (on_eventmanager_eq _ _ pe)
      by first [exact Hpe|fields; apply lookup_insert_eq].
    reflexivity. }
  eexists _, _, _, _, _. split; [exact Hadd|]. fields.
  rewrite !lookup_insert_eq.
  split; [reflexivity|]. do 3 (split; [reflexivity|]).
  split; [reflexivity|]. split; [reflexivity|].
  split; [exact Hremove|]. fields. rewrite !lookup_insert_eq.
  split; [reflexivity|]. do 5 (split; [reflexivity|]).
  split.
  { f_equal. destruct em as [sc cam vp l]. cbn in Hnew.
    unfold em_removeSoScXMLStateMachine, em_addSoScXMLStateMachine. cbn.
    by rewrite remove_first_app_new. }
  split; [|done]. intros c Hc. by rewrite !lookup_insert_ne.
Qed.

(** *** Unloading the navigation *)

(** X13: [resetNavigationModeFile] on a widget with a navigation loaded
    takes the machine off the event manager's list, deletes it, clears the
    widget's pointer to it and stores the null URL; the cursor table, the
    render managers, the reference counts and the trace are as before.
    Resetting once more changes nothing. *)
Theorem resetNavigationModeFile_unloads (w : World) (cur pe : ptr)
    (m : ScXMLStateMachine) (em : SoEventManager) :
  currentStateMachine (pimpl w) = Some cur ->
  statemachines w !! cur = Some m ->
  soeventmanager (pimpl w) = Some pe ->
  eventmanagers w !! pe = Some em ->
  ∃ w', resetNavigationModeFile w = Some w' ∧
        currentStateMachine (pimpl w') = None ∧
        navigationModeFile (pimpl w') = QUrl_null ∧
        statemachines w' = delete cur (statemachines w) ∧
        eventmanagers w' =
          <[pe := em_removeSoScXMLStateMachine cur em]> (eventmanagers w) ∧
        rendermanagers w' = rendermanagers w ∧
        refcount w' = refcount w ∧
        statecursormap w' = statecursormap w ∧
        trace w' = trace w ∧
        resetNavigationModeFile w' = Some w'.
Proof.
  intros Hcur Hm Hpe Hem.
  unfold resetNavigationModeFile, setNavigationModeFile.
  rewrite !decide_False by discriminate.
  change (isEmpty QUrl_null) with true. cbv iota. rewrite Hcur.
  rewrite (removeStateMachine_eq w cur pe m em Hm Hpe Hem). fields.
  unfold delete_statemachine. fields. rewrite lookup_insert_eq. fields.
  eexists. split; [reflexivity|]. fields.
  rewrite !delete_insert_eq. split_and!; reflexivity.
Qed.

(** *** The end of the widget *)





(** *** Loading a navigation *)

(** X15: a load that succeeds replaces the navigation.  The object read
    sits at a new address; the machine held before, if any, is taken off
    the event manager's list and deleted; the new machine is put at the end
    of that list, bound to the scene graph and the camera the render
    manager has at that moment, given one state-change callback and
    started; the widget points to it and stores the URL.  No other state
    machine, no manager's scene, no reference count and nothing on the
    trace changes. *)
Theorem setNavigationModeFile_replaces (url : QUrl) (filename : string) (w : World)
    (sm0 : ScXMLStateMachine) (pr pe : ptr) (rm : SoRenderManager)
    (em : SoEventManager) (m : gmap string QCursor) :
  resolves url filename ->
  read_statemachine filename = Some sm0 ->
  sm_isSoScXML sm0 = true ->
  sorendermanager (pimpl w) = Some pr -> rendermanagers w !! pr = Some rm ->
  soeventmanager (pimpl w) = Some pe -> eventmanagers w !! pe = Some em ->
  navigation_alive w ->
  statecursormap w = Some m ->
  ∃ w' new m' em',
    setNavigationModeFile url w = Some w' ∧
    statemachines w !! new = None ∧
    currentStateMachine (pimpl w') = Some new ∧
    navigationModeFile (pimpl w') = url ∧
    statemachines w' !! new = Some m' ∧
    sm_active m' = true ∧
    sm_sceneroot m' = rm_scene rm ∧ sm_camera m' = rm_camera rm ∧
    sm_statechangecbs m' = S (sm_statechangecbs sm0) ∧
    sm_processed m' = sm_processed sm0 ∧
    (∀ cur, currentStateMachine (pimpl w) = Some cur ->
            statemachines w' !! cur = None) ∧
    (∀ c, c ≠ new -> currentStateMachine (pimpl w) ≠ Some c ->
          statemachines w' !! c = statemachines w !! c) ∧
    eventmanagers w' = <[pe := em']> (eventmanagers w) ∧
    em_statemachines em' =
      match currentStateMachine (pimpl w) with
      | Some cur => remove_first cur (em_statemachines em)
      | None => em_statemachines em
      end ++ [new] ∧
    em_scene em' = em_scene em ∧ em_camera em' = em_camera em ∧
    em_viewport em' = em_viewport em ∧
    rendermanagers w' = rendermanagers w ∧
    refcount w' = refcount w ∧
    trace w' = trace w.
Proof.
  intros Hres Hread Htype Hpr Hrm Hpe Hem Halive Hcursors.
  destruct (load_step url filename w sm0 pr pe rm em m Hres Hread Htype Hpr Hrm Hpe Hem
              Halive Hcursors)
    as (w' & new & m' & em' & Hrun & Hnew & Hcur & Hfile & Hm' & Hactive & Hroot & Hcam
        & Hcbs & Hproc & Hgone & Hkept & Hems & Hlist & Hscene & Hcamera & Hvp & Hrms
        & Hrc & Htrace & _).
  exists w', new, m', em'. by split_and!.
Qed.

(** *** The pixel ratio and the size of the viewport *)

(** X16: [updateDevicePixelRatio] reports a change, stores the ratio and
    emits [devicePixelRatioChanged] exactly when it is compiled for Qt 5.6
    or later and the host's ratio differs from the stored one; otherwise
    it does nothing at all.  Called again with the same host it reports
    no change and emits nothing. *)
Theorem updateDevicePixelRatio_settles (host : Host) (w : World) :
  ∃ changed w1,
    updateDevicePixelRatio host w = (changed, w1) ∧
    (changed = true ↔
     0x050600 <= QT_VERSION ∧ devicePixelRatio w ≠ host_devicePixelRatio host) ∧
    (changed = true ->
     devicePixelRatio w1 = host_devicePixelRatio host ∧
     trace w1 = trace w ++ [DevicePixelRatioChanged (host_devicePixelRatio host)]) ∧
    (changed = false -> w1 = w) ∧
    updateDevicePixelRatio host w1 = (false, w1).
Proof.
  unfold updateDevicePixelRatio, devicePixelRatio.
  destruct (0x050600 <=? QT_VERSION) eqn:Hqt.
  - apply Z.leb_le in Hqt.
    destruct (decide (device_pixel_ratio (pimpl w) ≠ host_devicePixelRatio host))
      as [Hne|Heq].
    + eexists _, _. split; [reflexivity|]. fields.
      split_and!; try done. by rewrite decide_False by (by intros []).
    + eexists _, _. split; [reflexivity|].
      split_and!; try done.
      * split; [done|]. by intros [_ ?].
      * by rewrite decide_False.
  - apply Z.leb_gt in Hqt. eexists _, _. split; [reflexivity|].
    split_and!; try done. split; [done|]. intros [? _]. lia.
Qed.

(** A property checked one integer after the other holds on the range. *)
Lemma holds_from_spec (P : Z -> bool) (lo : Z) (n : positive) :
  holds_from P lo n = true -> ∀ k, lo <= k < lo + Z.pos n -> P k = true.
Proof.
  unfold holds_from. rewrite Pos2Nat.inj_iter, <- (positive_nat_Z n).
  generalize (Pos.to_nat n) as m. clear n. intros m.
  assert (∀ m,
            (nat_rect (λ _, (Z * bool)%type) (lo, true)
               (λ _ '(k, ok), (k + 1, ok && P k)) m).1 = lo + Z.of_nat m ∧
            ((nat_rect (λ _, (Z * bool)%type) (lo, true)
                (λ _ '(k, ok), (k + 1, ok && P k)) m).2 = true ->
             ∀ k, lo <= k < lo + Z.of_nat m -> P k = true)) as Hiter.
  { clear m. induction m as [|m [IHk IHok]].
    - cbn. split; [lia|]. intros _ k Hk. lia.
    - cbn [nat_rect]. destruct (nat_rect _ _ _ m) as [k0 ok]. cbn [fst snd] in *.
      split; [lia|]. intros Hok k Hk.
      apply andb_true_iff in Hok as [Hok HP].
      destruct (decide (k = k0)) as [->|Hne]; [done|].
      apply (IHok Hok). lia. }
  apply Hiter.
Qed.




(** *** The background colour *)

(** Every channel value a [QColor] can hold was tried. *)
Lemma normalized_close (c : Z) :
  0 <= c <= 255 -> close_to_channel c (normalized c) = true.
Proof.
  intros Hc.
  apply (holds_from_spec (λ c, close_to_channel c (normalized c)) 0 256);
    [by vm_compute|lia].
Qed.

(** X18: the colour [setBackgroundColor] hands to the render manager is
    the [QColor] with every channel divided by [255.0] in [double] and
    narrowed to [float]: a channel [c] is stored as a [float] between
    [0.0] and [1.0] that is within [2^-25] of [c / 255], black as [0.0]
    and full intensity as [1.0].  Nothing else of the render manager
    changes. *)
Theorem setBackgroundColor_clamps (w : World) (p : ptr) (m : SoRenderManager)
    (color : QColor) :
  sorendermanager (pimpl w) = Some p ->
  rendermanagers w !! p = Some m ->
  0 <= red color <= 255 -> 0 <= green color <= 255 ->
  0 <= blue color <= 255 -> 0 <= alpha color <= 255 ->
  ∃ w' m',
    setBackgroundColor color w = Some w' ∧
    rendermanagers w' !! p = Some m' ∧
    rm_background m' = SbColor4f_of_QColor color ∧
    close_to_channel (red color) (col_r (rm_background m')) = true ∧
    close_to_channel (green color) (col_g (rm_background m')) = true ∧
    close_to_channel (blue color) (col_b (rm_background m')) = true ∧
    close_to_channel (alpha color) (col_a (rm_background m')) = true ∧
    normalized 0 = SpecFloat.S754_zero false ∧
    normalized 255 = float_of_double (double_of_int 1) ∧
    rm_scene m' = rm_scene m ∧ rm_camera m' = rm_camera m ∧
    rm_viewport m' = rm_viewport m ∧ rm_transparency m' = rm_transparency m ∧
    rm_rendermode m' = rm_rendermode m ∧ rm_stereomode m' = rm_stereomode m.
Proof.
  intros Hp Hm Hr Hg Hb Ha. unfold setBackgroundColor. cbv zeta.
  rewrite (on_rendermanager_eq _ w p m Hp Hm). fields.
  unfold scheduleRedraw. fields. rewrite Hp. fields. rewrite lookup_insert_eq.
  fields. eexists _, _. split; [reflexivity|]. fields.
  rewrite lookup_insert_eq. split; [reflexivity|].
  cbn [rm_setBackgroundColor rm_background col_r col_g col_b col_a rm_scene
       rm_camera rm_viewport rm_transparency rm_rendermode rm_stereomode].
  split; [reflexivity|].
  split_and!; try done; by apply normalized_close.
Qed.

End QuarterWidget.

(** ** Which readers a load consults *)

Lemma coin_prefix (rest : string) :
  String.prefix "coin:" ("coin" +:+ ":" +:+ rest) = true.
Proof. by destruct rest. Qed.

(** X19: for a URL of scheme [coin] the outcome of [setNavigationModeFile]
    is decided by the Coin reader alone: the local-file name of the URL,
    the files and the buffer reader are never consulted. *)
Theorem coin_scheme_reads_no_file (QT_VERSION : Z) (DEFAULT_NAVIGATIONFILE : QUrl)
    (ScXML_readFile : string -> option ScXMLStateMachine)
    (QUrl_toLocalFile QUrl_toLocalFile' : QUrl -> string)
    (QFile_readAll QFile_readAll' : string -> option string)
    (ScXML_readBuffer ScXML_readBuffer' : string -> option ScXMLStateMachine)
    (url : QUrl) (w : World) :
  url_scheme url = "coin" ->
  setNavigationModeFile QT_VERSION DEFAULT_NAVIGATIONFILE QUrl_toLocalFile
    ScXML_readFile QFile_readAll ScXML_readBuffer url w =
  setNavigationModeFile QT_VERSION DEFAULT_NAVIGATIONFILE QUrl_toLocalFile'
    ScXML_readFile QFile_readAll' ScXML_readBuffer' url w.
Proof.
  intros Hscheme. unfold setNavigationModeFile.
  rewrite !decide_True by done. rewrite Hscheme. fields.
  by rewrite !coin_prefix.
Qed.

(** ** The statements at the concrete widget

    The outside world is the one of [coin_resources]: built against Qt 6,
    the default navigation file is the examiner resource, which exists; no
    other file can be opened. *)

Lemma fresh_widget_managed : managed fresh_widget.
Proof. split; exists 1%positive; (split; [reflexivity|by eexists]). Qed.


Lemma examiner_resolves :
  resolves only_path examiner_url "coin:scxml/navigation/examiner.xml".
Proof. left. by split. Qed.



(** *** C10 *)

Lemma setNavigationModeFile_empty_unloaded_witness :
  setNavigationModeFile qt6 examiner_url only_path coin_resources no_files no_buffers
    QUrl_null fresh_widget = Some fresh_widget.
Proof. apply setNavigationModeFile_empty_unloaded; reflexivity. Defined.

(** *** C6 *)

Lemma setNavigationModeFile_unsupported_scheme_witness :
  ∃ w', setNavigationModeFile qt6 examiner_url only_path coin_resources no_files no_buffers
          ftp_url widget_navigating = Some w' ∧
        trace w' = [QDebug [DText "ftp"; DText "is not recognized"]] ∧
        same_but_trace widget_navigating w' ∧
        currentStateMachine (pimpl w') = Some 1%positive ∧
        navigationModeFile (pimpl w') = examiner_url.
Proof.
  apply (setNavigationModeFile_unsupported_scheme qt6 examiner_url only_path
           coin_resources no_files no_buffers ftp_url widget_navigating);
    [discriminate|discriminate|reflexivity].
Defined.

(** *** C7 *)

Lemma setNavigationModeFile_load_failed_witness :
  ∃ w', setNavigationModeFile qt6 examiner_url only_path coin_resources no_files no_buffers
          missing_url widget_navigating = Some w' ∧
        trace w' = [QDebug [DText "/nowhere/nav.xml"];
                    QDebug [DText "Unable to load"; DUrl missing_url]] ∧
        same_but_trace widget_navigating w' ∧
        statemachines w' = statemachines widget_navigating ∧
        currentStateMachine (pimpl w') = Some 1%positive ∧
        navigationModeFile (pimpl w') = examiner_url.
Proof.
  apply (setNavigationModeFile_load_failed qt6 examiner_url only_path
           coin_resources no_files no_buffers missing_url "/nowhere/nav.xml"
           widget_navigating).
  - right. by split.
  - by left.
Defined.

(** *** C9 *)

Lemma processSoEvent_dispatch_witness :
  processSoEvent always_handled None fresh_widget = Some (false, fresh_widget) ∧
  processSoEvent always_handled (Some {| ev_id := 7 |}) fresh_widget
    = Some (true, fresh_widget).
Proof.
  split.
  - apply (processSoEvent_dispatch always_handled None fresh_widget). by left.
  - apply (proj2 (processSoEvent_dispatch always_handled (Some {| ev_id := 7 |})
                    fresh_widget) {| ev_id := 7 |} 1%positive);
      [reflexivity|reflexivity|by eexists].
Defined.

(** *** C1 *)

(** C1: a widget as it is constructed owns its render manager.  Handed
    that very manager, [setSoRenderManager] reads the scene graph, the
    camera and the viewport, deletes the manager because the widget owns
    it, and then calls into the deleted object: nothing is carried and the
    call has no defined result. *)
Theorem setSoRenderManager_own_manager_deleted :
  getSoRenderManager fresh_widget = Some 1%positive ∧
  initialsorendermanager (pimpl fresh_widget) = true ∧
  is_Some (rendermanagers fresh_widget !! 1%positive) ∧
  setSoRenderManager (getSoRenderManager fresh_widget) fresh_widget = None.
Proof.
  split; [reflexivity|]. split; [reflexivity|]. split; [by eexists|].
  by apply setSoRenderManager_own_manager.
Qed.

(** *** X20 *)

Lemma setSoRenderManager_carries_witness :
  ∃ w' m', setSoRenderManager (Some 2%positive) widget_with_scene = Some w' ∧
           sorendermanager (pimpl w') = Some 2%positive ∧
           initialsorendermanager (pimpl w') = false ∧
           rendermanagers w' !! 1%positive = None ∧
           rendermanagers w' !! 2%positive = Some m' ∧
           rm_scene m' =
             Some (Node 2 SoSeparator
                     [the_headlight; Node 3 SoPerspectiveCamera []; two_shapes]) ∧
           rm_camera m' = Some (Node 3 SoPerspectiveCamera []) ∧
           rm_viewport m' = SbViewportRegion_default.
Proof.
  destruct (setSoRenderManager_carries widget_with_scene 1 2
              (rm_setSceneGraph
                 (Some (Node 2 SoSeparator
                          [the_headlight; Node 3 SoPerspectiveCamera []; two_shapes]))
                 (rm_setCamera (Some (Node 3 SoPerspectiveCamera []))
                    plain_rendermanager))
              plain_rendermanager)
    as (w' & m' & Hrun & Hcur & Hown & Hold & Hnew & Hscene & Hcamera & Hvp & _);
    [reflexivity|reflexivity|by vm_compute|by vm_compute|discriminate|].
  exists w', m'. repeat split; assumption.
Defined.

(** *** C5 *)

Lemma setSceneGraph_twice_witness :
  setSceneGraph (Some two_shapes) widget_with_scene = Some widget_with_scene.
Proof.
  apply (proj2 (setSceneGraph_twice (Some two_shapes) widget_and_manager)
           widget_with_scene).
  by vm_compute.
Defined.

(** *** C4 *)

Lemma setSceneGraph_camera_witness :
  (∃ w', setSceneGraph (Some two_shapes) widget_navigating = Some w' ∧
         rendermanagers w' !! 1%positive =
           Some (rm_setSceneGraph
                   (Some (Node 2 SoSeparator
                            [the_headlight; Node 3 SoPerspectiveCamera []; two_shapes]))
                   (rm_setCamera (Some (Node 3 SoPerspectiveCamera []))
                      plain_rendermanager)) ∧
         statemachines w' !! 1%positive =
           Some (sm_queueEvent_processEventQueue "sim.coin3d.coin.navigation.ViewAll"
                   running_examiner) ∧
         trace w' = [Touch 2] ∧
         calls w' =
           [OnEventManager 1 (em_setCamera (Some (Node 3 SoPerspectiveCamera [])));
            OnRenderManager 1 (rm_setCamera (Some (Node 3 SoPerspectiveCamera [])));
            OnEventManager 1
              (em_setSceneGraph
                 (Some (Node 2 SoSeparator
                          [the_headlight; Node 3 SoPerspectiveCamera []; two_shapes])));
            OnRenderManager 1
              (rm_setSceneGraph
                 (Some (Node 2 SoSeparator
                          [the_headlight; Node 3 SoPerspectiveCamera []; two_shapes])));
            view_all_call 1]) ∧
  (∃ w', setSceneGraph (Some with_cameras) widget_navigating = Some w' ∧
         rendermanagers w' !! 1%positive =
           Some (rm_setSceneGraph
                   (Some (Node 2 SoSeparator [the_headlight; with_cameras]))
                   (rm_setCamera (Some (Node 24 SoOrthographicCamera []))
                      plain_rendermanager)) ∧
         statemachines w' = statemachines widget_navigating ∧
         calls w' =
           [OnEventManager 1 (em_setCamera (Some (Node 24 SoOrthographicCamera [])));
            OnRenderManager 1 (rm_setCamera (Some (Node 24 SoOrthographicCamera [])));
            OnEventManager 1
              (em_setSceneGraph
                 (Some (Node 2 SoSeparator [the_headlight; with_cameras])));
            OnRenderManager 1
              (rm_setSceneGraph
                 (Some (Node 2 SoSeparator [the_headlight; with_cameras])))]).
Proof.
  assert (Forall (λ c, is_Some (statemachines widget_navigating !! c))
            (em_statemachines (em_addSoScXMLStateMachine 1 plain_eventmanager)))
    as Hall by (constructor; [by eexists|constructor]).
  split.
  - destruct (setSceneGraph_camera widget_navigating two_shapes the_headlight 1 1
                plain_rendermanager (em_addSoScXMLStateMachine 1 plain_eventmanager)
                eq_refl eq_refl eq_refl eq_refl eq_refl eq_refl Hall)
      as (w' & Hrun & _ & Hrm & _ & Hsm & Htrace & Hcalls).
    exists w'. split; [exact Hrun|]. split; [exact Hrm|].
    split; [by rewrite Hsm|]. split; [exact Htrace|exact Hcalls].
  - destruct (setSceneGraph_camera widget_navigating with_cameras the_headlight 1 1
                plain_rendermanager (em_addSoScXMLStateMachine 1 plain_eventmanager)
                eq_refl eq_refl eq_refl eq_refl eq_refl eq_refl Hall)
      as (w' & Hrun & _ & _ & _ & Hrm & _ & Hsm & _ & Hcalls).
    exists w'. split; [exact Hrun|]. split; [exact Hrm|].
    split; [exact Hsm|exact Hcalls].
Defined.

(** *** C2 *)

(** Two paints in a row with sensors pending both times: the second one
    processes the delay queue. *)
Lemma second_paint_flushes_again : ¬ no_double_flush qt6 a_host a_host fresh_widget.
Proof.
  intros Hnever.
  destruct (second_paint_flushes qt6 a_host a_host fresh_widget
              fresh_widget_managed eq_refl eq_refl eq_refl)
    as (w1 & w2 & pre & p & cw & cz & Hrun1 & Hrun2 & Htrace).
  apply (Hnever eq_refl eq_refl w1 w2 Hrun1 Hrun2).
  eexists. split; [exact Htrace|].
  rewrite elem_of_app, !elem_of_cons. auto.
Qed.

Lemma paintGL_twice_witness :
  ∃ w1 w2 w3 pre p cw cz,
    paintGL qt6 a_host fresh_widget = Some w1 ∧
    paintGL qt6 a_host w1 = Some w2 ∧
    trace w2 = trace w1 ++ pre ++ [DoneCurrent; ProcessDelayQueue false;
                                   MakeCurrent; Render p cw cz] ∧
    flushes w1 w2 ∧
    paintGL qt6 a_host (redraw qt6 w1) = Some w3 ∧ ¬ flushes (redraw qt6 w1) w3.
Proof.
  apply (paintGL_twice qt6 a_host a_host fresh_widget);
    [exact fresh_widget_managed|reflexivity|reflexivity|reflexivity].
Defined.

(** *** C3 *)

(** The two clear-flag setters ask for no redraw. *)
Lemma clear_flags_request_nothing :
  ¬ requests_redraw fresh_widget (setClearWindow false fresh_widget) ∧
  ¬ requests_redraw fresh_widget (setClearZBuffer false fresh_widget).
Proof.
  split; intros (p & events & Htrace & Hin); cbn in Htrace; subst events;
    by apply elem_of_nil in Hin.
Qed.

Lemma render_setters_redraw_witness :
  (∃ w', setBackgroundColor {| red := 10; green := 20; blue := 30; alpha := 128 |}
           fresh_widget = Some w' ∧ trace w' = [ScheduleRedraw 1] ∧
         rm_background <$> rendermanagers w' !! 1%positive =
           Some {| col_r := SpecFloat.S754_finite false 10526881 (-28);
                   col_g := SpecFloat.S754_finite false 10526881 (-27);
                   col_b := SpecFloat.S754_finite false 15790321 (-27);
                   col_a := SpecFloat.S754_finite false 8421505 (-24) |}) ∧
  (∃ w', setTransparencyType 3 fresh_widget = Some w' ∧ trace w' = [ScheduleRedraw 1]) ∧
  (∃ w', setRenderMode 2 fresh_widget = Some w' ∧ trace w' = [ScheduleRedraw 1]) ∧
  (∃ w', setStereoMode 1 fresh_widget = Some w' ∧ trace w' = [ScheduleRedraw 1]) ∧
  trace (setClearWindow false fresh_widget) = [] ∧
  trace (setClearZBuffer false fresh_widget) = [].
Proof.
  destruct (render_setters_redraw fresh_widget 1 plain_rendermanager eq_refl eq_refl)
    as (Hbg & Htt & Hrm & Hsm & Hcw & Hcz).
  split; [destruct (Hbg {| red := 10; green := 20; blue := 30; alpha := 128 |})
            as (w' & Hrun & Htrace & Hstored); exists w';
          split; [exact Hrun|]; split; [exact Htrace|by rewrite Hstored]|].
  split; [destruct (Htt 3) as (w' & ? & ? & _); by exists w'|].
  split; [destruct (Hrm 2) as (w' & ? & ? & _); by exists w'|].
  split; [destruct (Hsm 1) as (w' & ? & ? & _); by exists w'|].
  split; [exact (proj1 (Hcw false))|exact (proj1 (Hcz false))].
Defined.

(** *** C8 *)



(** ** The further properties at the concrete widget *)

Lemma widget_navigating_alive : navigation_alive widget_navigating.
Proof. intros cur Hcur. injection Hcur as <-. by eexists. Qed.

Lemma fresh_widget_same_viewport : same_viewport fresh_widget.
Proof.
  exists 1%positive, plain_rendermanager, 1%positive, plain_eventmanager.
  by split_and!.
Qed.

(** *** X1 *)

Lemma stateCursor_after_setStateCursor_witness :
  ∃ w1 w2,
    setStateCursor "pan" CrossCursor widget_with_cursor = Some w1 ∧
    setStateCursor "pan" SizeAllCursor w1 = Some w2 ∧
    stateCursor "pan" w2 = Some SizeAllCursor ∧
    stateCursor "measure" w2 = Some CrossCursor ∧
    stateCursor "zoom" widget_with_cursor = Some ArrowCursor.
Proof.
  destruct (stateCursor_after_setStateCursor widget_with_cursor
              {[ "measure" := CrossCursor ]} "pan" "measure" CrossCursor
              SizeAllCursor eq_refl)
    as (w1 & w2 & H1 & H2 & _ & Hpan & Hother & _).
  exists w1, w2. split; [exact H1|]. split; [exact H2|]. split; [exact Hpan|].
  split; [rewrite Hother by discriminate; reflexivity|].
  destruct (stateCursor_after_setStateCursor widget_with_cursor
              {[ "measure" := CrossCursor ]} "pan" "zoom" CrossCursor
              SizeAllCursor eq_refl)
    as (_ & _ & _ & _ & _ & _ & _ & Hnone & _).
  apply Hnone. reflexivity.
Defined.

(** *** X2 *)

Lemma render_modes_read_back_witness :
  ∃ w1 w2 w3,
    setTransparencyType 3 fresh_widget = Some w1 ∧
    setRenderMode 2 w1 = Some w2 ∧
    setStereoMode 1 w2 = Some w3 ∧
    transparencyType w3 = Some 3 ∧ renderMode w3 = Some 2 ∧ stereoMode w3 = Some 1.
Proof.
  destruct (render_modes_read_back fresh_widget 1 plain_rendermanager 3 2 1
              eq_refl eq_refl)
    as (w1 & w2 & w3 & H1 & H2 & H3 & _ & _ & _ & _ & _ & _ & Ht & Hr & Hs).
  exists w1, w2, w3. repeat split; assumption.
Defined.

(** *** X3 *)

Lemma clear_flags_reach_the_draw_witness :
  ∃ w' p events,
    paintGL qt6 a_host (setClearZBuffer false (setClearWindow true fresh_widget))
      = Some w' ∧
    trace w' = events ++ [Render p true false] ∧
    clearWindow w' = true ∧ clearZBuffer w' = false.
Proof.
  destruct (clear_flags_reach_the_draw qt6 a_host fresh_widget true false
              fresh_widget_managed eq_refl)
    as (w' & p & events & Hrun & _ & Htrace & _ & Hcw & Hcz).
  exists w', p, events. repeat split; assumption.
Defined.

(** *** X4 *)

Lemma setSoRenderManager_null_witness :
  ∃ w', setSoRenderManager None fresh_widget = Some w' ∧
        getSoRenderManager w' = None ∧
        rendermanagers w' = delete 1%positive (rendermanagers fresh_widget) ∧
        paintGL qt6 a_host w' = None ∧
        setRenderMode 2 w' = None.
Proof.
  destruct (setSoRenderManager_null qt6 fresh_widget 1 plain_rendermanager
              eq_refl eq_refl eq_refl)
    as (w' & Hrun & Hnull & _ & Hgone & _ & _ & Hpaint & Hmode & _).
  exists w'. repeat split; try assumption; [apply Hpaint|apply Hmode].
Defined.

(** *** X5 *)

Lemma setSoRenderManager_keeps_foreign_witness :
  ∃ w', setSoRenderManager (Some 2%positive)
          (assign (set_initialsorendermanager false) widget_and_manager) = Some w' ∧
        getSoRenderManager w' = Some 2%positive ∧
        rendermanagers w' !! 1%positive = Some plain_rendermanager.
Proof.
  destruct (setSoRenderManager_keeps_foreign
              (assign (set_initialsorendermanager false) widget_and_manager)
              1 plain_rendermanager (Some 2%positive) eq_refl eq_refl eq_refl)
    as (w' & Hrun & Hcur & _ & Hold).
  { intros new Hnew. injection Hnew as <-. by eexists. }
  exists w'. repeat split; assumption.
Defined.

(** *** X6 *)

Lemma setSoEventManager_carries_witness :
  ∃ w' m',
    setSoEventManager (Some 2%positive)
      (with_eventmanagers <[ 2%positive := plain_eventmanager ]> widget_navigating)
      = Some w' ∧
    getSoEventManager w' = Some 2%positive ∧
    eventmanagers w' !! 1%positive = None ∧
    eventmanagers w' !! 2%positive = Some m' ∧
    em_statemachines m' = [].
Proof.
  destruct (setSoEventManager_carries
              (with_eventmanagers <[ 2%positive := plain_eventmanager ]>
                 widget_navigating)
              1 2 (em_addSoScXMLStateMachine 1 plain_eventmanager)
              plain_eventmanager eq_refl eq_refl)
    as (w' & m' & Hrun & Hcur & _ & Hold & Hnew & _ & _ & _ & Hlist & _);
    [by vm_compute|by vm_compute|discriminate|].
  exists w', m'. repeat split; assumption.
Defined.

Lemma widget_with_scene_managed : managed widget_with_scene.
Proof. split; exists 1%positive; (split; [by vm_compute|by eexists]). Qed.

(** *** X7 *)

Lemma setSceneGraph_null_witness :
  ∃ w', setSceneGraph None widget_with_scene = Some w' ∧
        getSceneGraph w' = None ∧
        refcount_of w' 10 = 0 ∧ refcount_of w' 1 = 1 ∧
        next_node w' = 4%positive ∧
        trace w' = [Touch 2].
Proof.
  destruct (setSceneGraph_null widget_with_scene two_shapes)
    as (w' & pr & rm & pe & em & Hrun & Hget & _ & _ & _ & _ & _ & _ & Hcount
        & _ & Hnext & Htrace);
    [by vm_compute|exact widget_with_scene_managed|].
  exists w'. split; [exact Hrun|]. split; [exact Hget|].
  split; [by rewrite Hcount|]. split; [by rewrite Hcount|].
  split; [by rewrite Hnext|by rewrite Htrace].
Defined.

(** *** X8 *)

Lemma setSceneGraph_references_witness :
  same_node (Some two_shapes) (getSceneGraph widget_with_scene) = true ∧
  headlight (pimpl widget_with_scene) = Some the_headlight ∧
  refcount_of widget_with_scene 10 = 1.
Proof.
  destruct (setSceneGraph_references (Some two_shapes) widget_and_manager
              widget_with_scene)
    as (Hget & Hhl & Hcount & _); [by vm_compute|].
  split; [exact Hget|]. split; [by rewrite Hhl|by rewrite Hcount].
Defined.

(** *** X9 *)

Lemma setSceneGraph_same_view_witness : same_view widget_with_scene.
Proof.
  apply (setSceneGraph_same_view (Some two_shapes) widget_and_manager
           widget_with_scene); by vm_compute.
Defined.

(** *** X10 *)

Lemma viewports_stay_together_witness :
  (∃ w', resizeGL qt6 a_host 800 600 fresh_widget = Some w' ∧ same_viewport w') ∧
  (∃ w', paintGL qt6 a_host fresh_widget = Some w' ∧ same_viewport w').
Proof.
  destruct (viewports_stay_together qt6 a_host 800 600 fresh_widget
              fresh_widget_managed eq_refl)
    as [(w1 & Hresize & Hvp1 & _) (w2 & Hpaint & Hvp2 & _)].
  split; [by exists w1|]. exists w2. split; [exact Hpaint|].
  apply Hvp2, fresh_widget_same_viewport.
Defined.

(** *** X11 *)

Lemma seek_and_viewAll_deliver_witness :
  (∃ w', seek widget_navigating = Some w' ∧
         statemachines w' !! 1%positive =
           Some (sm_queueEvent_processEventQueue "sim.coin3d.coin.navigation.Seek"
                   running_examiner)) ∧
  (∃ w', viewAll widget_navigating = Some w' ∧
         statemachines w' !! 1%positive =
           Some (sm_queueEvent_processEventQueue "sim.coin3d.coin.navigation.ViewAll"
                   running_examiner)).
Proof.
  assert (Forall (λ c, is_Some (statemachines widget_navigating !! c))
            (em_statemachines (em_addSoScXMLStateMachine 1 plain_eventmanager)))
    as Hall by (constructor; [by eexists|constructor]).
  split.
  - destruct (seek_and_viewAll_deliver widget_navigating 1
                (em_addSoScXMLStateMachine 1 plain_eventmanager) eq_refl eq_refl Hall
                seek "sim.coin3d.coin.navigation.Seek" (or_introl (conj eq_refl eq_refl)))
      as (w' & Hrun & _ & _ & _ & _ & _ & _ & _ & Hon).
    exists w'. split; [exact Hrun|]. by apply Hon.
  - destruct (seek_and_viewAll_deliver widget_navigating 1
                (em_addSoScXMLStateMachine 1 plain_eventmanager) eq_refl eq_refl Hall
                viewAll "sim.coin3d.coin.navigation.ViewAll"
                (or_intror (conj eq_refl eq_refl)))
      as (w' & Hrun & _ & _ & _ & _ & _ & _ & _ & Hon).
    exists w'. split; [exact Hrun|]. by apply Hon.
Defined.

(** *** X12 *)

Lemma removeStateMachine_after_add_witness :
  ∃ w1 w2 m2 em1,
    addStateMachine 1 (with_statemachines <[ 1%positive := examiner ]> widget_with_scene)
      = Some w1 ∧
    eventmanagers w1 !! 1%positive = Some em1 ∧
    em_statemachines em1 = [1%positive] ∧
    removeStateMachine 1 w1 = Some w2 ∧
    statemachines w2 !! 1%positive = Some m2 ∧
    sm_sceneroot m2 = None ∧ sm_camera m2 = None ∧
    eventmanagers w2 !! 1%positive = eventmanagers widget_with_scene !! 1%positive.
Proof.
  edestruct (removeStateMachine_after_add
               (with_statemachines <[ 1%positive := examiner ]> widget_with_scene)
               1 1 1 examiner)
    as (w1 & w2 & m1 & m2 & em1 & Hadd & _ & _ & _ & _ & Hem1 & Hlist & Hremove
        & Hm2 & Hroot & Hcam & _ & _ & _ & Hem2 & _);
    [vm_compute; reflexivity|vm_compute; reflexivity|vm_compute; reflexivity
    |vm_compute; reflexivity|vm_compute; reflexivity
    |cbn; apply not_elem_of_nil|].
  exists w1, w2, m2, em1. repeat split; assumption.
Defined.

(** *** X13 *)

Lemma resetNavigationModeFile_unloads_witness :
  ∃ w', resetNavigationModeFile qt6 examiner_url only_path coin_resources no_files
          no_buffers widget_navigating = Some w' ∧
        currentStateMachine (pimpl w') = None ∧
        navigationModeFile (pimpl w') = QUrl_null ∧
        statemachines w' !! 1%positive = None ∧
        eventmanagers w' !! 1%positive = Some plain_eventmanager.
Proof.
  destruct (resetNavigationModeFile_unloads qt6 examiner_url only_path coin_resources
              no_files no_buffers widget_navigating 1 1 running_examiner
              (em_addSoScXMLStateMachine 1 plain_eventmanager)
              eq_refl eq_refl eq_refl eq_refl)
    as (w' & Hrun & Hcur & Hfile & Hsm & Hem & _).
  exists w'. split; [exact Hrun|]. split; [exact Hcur|]. split; [exact Hfile|].
  split; [by rewrite Hsm|by rewrite Hem].
Defined.

(** *** X14 *)


(** *** X15 *)

Lemma setNavigationModeFile_replaces_witness :
  ∃ w' new m',
    setNavigationModeFile qt6 examiner_url only_path coin_resources no_files no_buffers
      examiner_url widget_navigating = Some w' ∧
    statemachines widget_navigating !! new = None ∧
    currentStateMachine (pimpl w') = Some new ∧
    statemachines w' !! new = Some m' ∧ sm_active m' = true ∧
    statemachines w' !! 1%positive = None.
Proof.
  destruct (setNavigationModeFile_replaces qt6 examiner_url only_path coin_resources
              no_files no_buffers examiner_url "coin:scxml/navigation/examiner.xml"
              widget_navigating examiner 1 1 plain_rendermanager
              (em_addSoScXMLStateMachine 1 plain_eventmanager) ∅
              examiner_resolves eq_refl eq_refl eq_refl eq_refl eq_refl eq_refl
              widget_navigating_alive eq_refl)
    as (w' & new & m' & em' & Hrun & Hnew & Hcur & _ & Hm' & Hactive & _ & _ & _
        & _ & Hgone & _).
  exists w', new, m'. split; [exact Hrun|]. split; [exact Hnew|].
  split; [exact Hcur|]. split; [exact Hm'|]. split; [exact Hactive|].
  by apply Hgone.
Defined.

(** *** X17 *)


(** *** X18 *)

Lemma setBackgroundColor_clamps_witness :
  ∃ w' m',
    setBackgroundColor {| red := 10; green := 0; blue := 255; alpha := 128 |}
      fresh_widget = Some w' ∧
    rendermanagers w' !! 1%positive = Some m' ∧
    col_r (rm_background m') = SpecFloat.S754_finite false 10526881 (-28) ∧
    col_g (rm_background m') = SpecFloat.S754_zero false ∧
    col_b (rm_background m') = SpecFloat.S754_finite false 8388608 (-23) ∧
    close_to_channel 128 (col_a (rm_background m')) = true.
Proof.
  destruct (setBackgroundColor_clamps fresh_widget 1 plain_rendermanager
              {| red := 10; green := 0; blue := 255; alpha := 128 |} eq_refl eq_refl)
    as (w' & m' & Hrun & Hm' & Hbg & _ & _ & _ & Ha & _); [cbn; lia..|].
  exists w', m'. split; [exact Hrun|]. split; [exact Hm'|].
  rewrite Hbg. split; [by vm_compute|]. split; [by vm_compute|].
  split; [by vm_compute|]. by rewrite Hbg in Ha.
Defined.

(** *** X19 *)

Lemma coin_scheme_reads_no_file_witness :
  setNavigationModeFile qt6 examiner_url only_path coin_resources no_files no_buffers
    examiner_url fresh_widget =
  setNavigationModeFile qt6 examiner_url (λ _, "") coin_resources
    (λ _, Some "<scxml/>") (λ _, Some foreign_machine) examiner_url fresh_widget.
Proof. by apply coin_scheme_reads_no_file. Defined.
